(** * The review pipeline of FDA Studio

    A shallow embedding of [components/ReviewPipeline.tsx] (the pipeline of
    agents, their results, the import and export of the agent settings) and
    of the part of [App.tsx] that owns the resource counters ([updateStats])
    and the execution log ([addLog]).

    React state is threaded explicitly: a [State] record holds the
    [useState] cells of both components, an event handler is a function on
    [State], and a functional updater [setX(prev => e)] is applied to the
    latest value of the cell.  The one suspension point of the program, the
    [await generateText(...)] of [executeAgent], splits that function in
    two: [executeAgent] runs up to the call and leaves a [Task] in the
    [pending] list, [settle] is the continuation that runs when the provider
    answers.  Other events may be handled in between.

    [State] and [dispatch] are those of one mounted [ReviewPipeline].
    [App] renders the component only while its tab is active, and a remount
    starts again from the [useState] initialisers while the calls of the old
    component stay in flight: [Tabbed] and [appDispatch] add the tab switch
    and the answers to such calls.  The external parts ([generateText], the
    clock, the file the user picks) enter as the data of an event.

    The config cell is typed ([list AgentConfig]); what the import stores
    when the file holds other values is [onloadSettings], on values. *)

From Stdlib Require Import ZArith Ascii String List Bool Lia.
From Stdlib Require Import Floats.SpecFloat.
From stdpp Require Import base option list gmap strings.

(** ** JavaScript values used by the component *)

(** A JavaScript number is an IEEE 754 binary64 datum.  The program never
    computes with [maxTokens] or [temperature]; it stores them, hands them to
    the provider and serialises them, so only the class of the datum (NaN,
    infinite, zero and its sign, finite) matters. *)
Abbreviation number := spec_float.

(** Strings are sequences of code units; the code units of this model are
    the 256 of the Latin-1 range.  [!!s] on a string: the empty string is
    the only falsy one. *)
Definition truthy (s : string) : bool :=
  match s with
  | EmptyString => false
  | String _ _ => true
  end.

(** WhiteSpace and LineTerminator code units in the modelled range:
    TAB, LF, VT, FF, CR, SP and NBSP. *)
Definition isWhiteSpace (c : ascii) : bool :=
  let n := nat_of_ascii c in
  Nat.eqb n 9 || Nat.eqb n 10 || Nat.eqb n 11 || Nat.eqb n 12
  || Nat.eqb n 13 || Nat.eqb n 32 || Nat.eqb n 160.

Fixpoint trimStart (s : string) : string :=
  match s with
  | EmptyString => EmptyString
  | String c rest => if isWhiteSpace c then trimStart rest else s
  end.

Fixpoint trimEnd (s : string) : string :=
  match s with
  | EmptyString => EmptyString
  | String c rest =>
      match trimEnd rest with
      | EmptyString => if isWhiteSpace c then EmptyString else String c EmptyString
      | kept => String c kept
      end
  end.

(** [String.prototype.trim] *)
Definition trim (s : string) : string := trimEnd (trimStart s).

(** The line feed of the template literals. *)
Definition LF : string := String (ascii_of_nat 10) EmptyString.

(** ** Data model ([types.ts] is not part of the sources) *)

(** Modelled from the spec: the [AgentConfig] interface of [types.ts], with
    the eight fields the component reads and the configuration file
    carries. *)
Record AgentConfig := mkAgentConfig {
  id : string;
  name : string;
  description : string;
  provider : string;
  model : string;
  maxTokens : number;
  temperature : number;
  systemPrompt : string
}.

(** The literal union ['idle' | 'running' | 'completed' | 'error']. *)
Inductive Status := Idle | Running | Completed | Error.

#[global] Instance Status_eq_dec : EqDecision Status.
Proof. solve_decision. Defined.

(** Modelled from the spec: the [AgentResult] interface of [types.ts].  An
    absent property is [None].  [status] is optional in the model because
    [handleSaveOutput] spreads [prev[agentId]], which may be undefined. *)
Record AgentResult := mkAgentResult {
  status : option Status;
  output : string;
  error : option string;
  timestamp : option string
}.

(** An entry of the [AI_MODELS] table of [constants.ts]. *)
Module AIModel.
Record t := mk { id : string; name : string; provider : string }.
End AIModel.

(** The severity of a log line, [LogEntry['type']]. *)
Inductive LogType := LogInfo | LogSuccess | LogError.

(** A line of the execution log.  [addLog] also stamps it with the clock,
    which no handler reads back. *)
Record LogEntry := mkLogEntry { message : string; type : LogType }.

(** The arguments of one [generateText(prompt, apiKey, options)] call. *)
Record GenerateTextCall := mkCall {
  call_prompt : string;
  call_apiKey : option string;
  call_model : string;
  call_maxTokens : number;
  call_temperature : number;
  call_provider : string
}.

(** An [executeAgent] suspended at its [await]: the [config] its closure
    captured and the call it waits for. *)
Record Task := mkTask { task_config : AgentConfig; task_call : GenerateTextCall }.

(** How the promise of [generateText] settles. *)
Inductive Settled :=
  | Resolved (response : string)
  | Rejected (err_message : string).

(** The state cells: [agentConfigs] and [results] of [ReviewPipeline];
    [mana], [experience] and [apiKeys] of the [AppState] of [App]; [logs]
    of [App]; and the suspended executions. *)
Record State := mkState {
  agentConfigs : list AgentConfig;
  results : gmap string AgentResult;
  mana : Z;
  experience : Z;
  apiKeys : gmap string string;
  logs : list LogEntry;
  pending : list Task
}.

(** ** [App.tsx] *)

(** [addLog], passed down as [onLog] *)
Definition addLog (msg : string) (ty : LogType) (s : State) : State :=
  mkState (agentConfigs s) (results s) (mana s) (experience s) (apiKeys s)
          (logs s ++ [mkLogEntry msg ty]) (pending s).

(** [updateStats], passed down as [onUpdateStats].  The counters are
    integers: they start at 60 and 1200, the component calls [updateStats]
    with [(20, 0)] and [(0, 50)] only, and on integers of size below 2^53
    the subtraction, the addition and [Math.max] of JavaScript numbers are
    those of [Z]. *)
Definition updateStats (manaCost xpGain : Z) (s : State) : State :=
  mkState (agentConfigs s) (results s)
          (Z.max 0 (mana s - manaCost)) (experience s + xpGain)
          (apiKeys s) (logs s) (pending s).

(** ** [ReviewPipeline.tsx]: state setters *)

Definition setAgentConfigs (f : list AgentConfig -> list AgentConfig) (s : State) : State :=
  mkState (f (agentConfigs s)) (results s) (mana s) (experience s)
          (apiKeys s) (logs s) (pending s).

Definition setResults
    (f : gmap string AgentResult -> gmap string AgentResult) (s : State) : State :=
  mkState (agentConfigs s) (f (results s)) (mana s) (experience s)
          (apiKeys s) (logs s) (pending s).

Definition setPending (f : list Task -> list Task) (s : State) : State :=
  mkState (agentConfigs s) (results s) (mana s) (experience s)
          (apiKeys s) (logs s) (f (pending s)).

(** [prev[key]?.output || ''] *)
Definition outputOrEmpty (prev : gmap string AgentResult) (key : string) : string :=
  match prev !! key with
  | Some r => output r
  | None => EmptyString
  end.

(** ** [handleSaveOutput] *)

(** [{ ...prev[agentId], output: newText }] *)
Definition withOutput (old : option AgentResult) (newText : string) : AgentResult :=
  match old with
  | Some r => mkAgentResult (status r) newText (error r) (timestamp r)
  | None => mkAgentResult None newText None None
  end.

Definition handleSaveOutput (agentId newText : string) (s : State) : State :=
  setResults (fun prev => <[agentId := withOutput (prev !! agentId) newText]> prev) s.

(** ** [executeAgent] *)

(** Step 1 of [executeAgent]: the input of the agent at [index].  [None]
    is the early return of the [!prevResult || !prevResult.output] test. *)
Definition determineInput (globalInput : string) (index : nat) (s : State)
    : option string :=
  match index with
  | O => Some globalInput
  | S before =>
      match agentConfigs s !! before with
      | None => None
      | Some prevConfig =>
          match results s !! id prevConfig with
          | None => None
          | Some prevResult =>
              if truthy (output prevResult) then Some (output prevResult) else None
          end
      end
  end.

Definition buildCall (config : AgentConfig) (inputContent : string) (s : State)
    : GenerateTextCall :=
  mkCall (systemPrompt config +:+ LF +:+ LF +:+ "[TASK INPUT]:" +:+ LF +:+ inputContent)
         (apiKeys s !! provider config)
         (model config) (maxTokens config) (temperature config) (provider config).

(** [executeAgent(index)] up to its [await].  [globalInput] is the prop of
    that name.  The result is [None] when [index] is not the index of an
    agent: the source then dereferences [undefined]; the Run button that
    calls [executeAgent] exists only for the indices of the list. *)
Definition executeAgent (globalInput : string) (index : nat) (s : State) : option State :=
  match agentConfigs s !! index with
  | None => None
  | Some config =>
      match determineInput globalInput index s with
      | None =>
          Some (addLog ("Cannot run " +:+ name config +:+ ". Previous agent has no output.")
                       LogError s)
      | Some inputContent =>
          if negb (truthy (trim inputContent)) then
            Some (addLog ("Input for " +:+ name config +:+ " is empty.") LogError s)
          else if (mana s <? 20)%Z then
            Some (addLog "Not enough Mana!" LogError s)
          else
            let s1 := updateStats 20 0 s in
            let s2 := setResults (fun prev =>
                        <[id config := mkAgentResult (Some Running)
                                         (outputOrEmpty prev (id config)) None None]> prev) s1 in
            let s3 := addLog ("Agent " +:+ name config +:+ " started...") LogInfo s2 in
            Some (setPending (fun q => q ++ [mkTask config (buildCall config inputContent s)]) s3)
      end
  end.

(** The [catch] block of [executeAgent]. *)
Definition catchError (config : AgentConfig) (err_message : string) (s : State) : State :=
  let s1 := setResults (fun prev =>
              <[id config := mkAgentResult (Some Error)
                               (outputOrEmpty prev (id config))
                               (Some err_message) None]> prev) s in
  addLog ("Agent " +:+ name config +:+ " failed: " +:+ err_message) LogError s1.

(** The rest of [executeAgent] after the [await]; [now] is the reading of
    [new Date().toLocaleTimeString()]. *)
Definition resume (config : AgentConfig) (r : Settled) (now : string) (s : State) : State :=
  match r with
  | Resolved response =>
      if negb (truthy response) then catchError config "Empty response" s
      else
        let s1 := setResults (fun prev =>
                    <[id config := mkAgentResult (Some Completed) response None (Some now)]> prev) s in
        let s2 := updateStats 0 50 s1 in
        addLog ("Agent " +:+ name config +:+ " completed.") LogSuccess s2
  | Rejected err_message => catchError config err_message s
  end.

(** The [k]-th suspended execution is resumed with the provider's answer. *)
Definition settle (k : nat) (r : Settled) (now : string) (s : State) : option State :=
  match pending s !! k with
  | None => None
  | Some t => Some (resume (task_config t) r now (setPending (delete k) s))
  end.

(** The Run button of the agent at [index]:
    [onClick={() => executeAgent(index)}] with
    [disabled={result.status === 'running'}], where [result] is
    [results[agent.id] || { status: 'idle', output: '' }].  A disabled
    button dispatches no click. *)
Definition displayedResult (s : State) (agent : AgentConfig) : AgentResult :=
  match results s !! id agent with
  | Some r => r
  | None => mkAgentResult (Some Idle) EmptyString None None
  end.

Definition runButton (globalInput : string) (index : nat) (s : State) : option State :=
  match agentConfigs s !! index with
  | None => None
  | Some agent =>
      if decide (status (displayedResult s agent) = Some Running) then Some s
      else executeAgent globalInput index s
  end.

(** ** [handleUpdateConfig] *)

(** The pair [(field, value)] of a call, with [field: keyof AgentConfig]:
    one constructor per key, carrying a value of the type of that key. *)
Inductive FieldValue :=
  | For_id (value : string)
  | For_name (value : string)
  | For_description (value : string)
  | For_provider (value : string)
  | For_model (value : string)
  | For_maxTokens (value : number)
  | For_temperature (value : number)
  | For_systemPrompt (value : string).

(** [AI_MODELS.find(m => m.id === value)] *)
Definition findModel (AI_MODELS : list AIModel.t) (value : string) : option AIModel.t :=
  List.find (fun m => String.eqb (AIModel.id m) value) AI_MODELS.

(** [modelInfo?.provider || 'gemini'] *)
Definition providerOrGemini (modelInfo : option AIModel.t) : string :=
  match modelInfo with
  | Some m => if truthy (AIModel.provider m) then AIModel.provider m else "gemini"
  | None => "gemini"
  end.

(** The body of the [map] callback for a config whose [id] matches. *)
Definition updated (AI_MODELS : list AIModel.t) (c : AgentConfig) (fv : FieldValue)
    : AgentConfig :=
  match fv with
  | For_model value =>
      let modelInfo := findModel AI_MODELS value in
      mkAgentConfig (id c) (name c) (description c) (providerOrGemini modelInfo) value
                    (maxTokens c) (temperature c) (systemPrompt c)
  | For_id value =>
      mkAgentConfig value (name c) (description c) (provider c) (model c)
                    (maxTokens c) (temperature c) (systemPrompt c)
  | For_name value =>
      mkAgentConfig (id c) value (description c) (provider c) (model c)
                    (maxTokens c) (temperature c) (systemPrompt c)
  | For_description value =>
      mkAgentConfig (id c) (name c) value (provider c) (model c)
                    (maxTokens c) (temperature c) (systemPrompt c)
  | For_provider value =>
      mkAgentConfig (id c) (name c) (description c) value (model c)
                    (maxTokens c) (temperature c) (systemPrompt c)
  | For_maxTokens value =>
      mkAgentConfig (id c) (name c) (description c) (provider c) (model c)
                    value (temperature c) (systemPrompt c)
  | For_temperature value =>
      mkAgentConfig (id c) (name c) (description c) (provider c) (model c)
                    (maxTokens c) value (systemPrompt c)
  | For_systemPrompt value =>
      mkAgentConfig (id c) (name c) (description c) (provider c) (model c)
                    (maxTokens c) (temperature c) value
  end.

Definition handleUpdateConfig (AI_MODELS : list AIModel.t)
    (target : string) (fv : FieldValue) (s : State) : State :=
  setAgentConfigs
    (fmap (fun c => if negb (String.eqb (id c) target) then c
                    else updated AI_MODELS c fv)) s.

(** ** The settings file: [handleDownloadSettings], [handleUploadSettings] *)

(** A JSON document, as [JSON.parse] returns it and as the text that
    [JSON.stringify] writes denotes it.  The text itself (indentation, the
    percent-encoding of the data URL) is not modelled.  An object is the
    list of its properties in enumeration order, its keys distinct. *)
#[warnings="-register-all"] Inductive json :=
  | JNull
  | JBool (b : bool)
  | JNumber (n : number)
  | JString (s : string)
  | JArray (items : list json)
  | JObject (props : list (string * json)).

(** What reading and parsing the chosen file yields: [JSON.parse] throws a
    SyntaxError or returns a value. *)
Inductive FileText :=
  | Unparsable
  | Document (parsed : json).

(** [JSON.stringify] of a number: NaN and the infinities are written as
    [null]; a finite number is written as a decimal that reads back as the
    same number, except that the negative zero is written as [0]. *)
Definition stringifyNumber (n : number) : json :=
  match n with
  | S754_nan => JNull
  | S754_infinity _ => JNull
  | S754_zero _ => JNumber (S754_zero false)
  | S754_finite _ _ _ => JNumber n
  end.

(** [JSON.stringify] of one config.  The properties are written in the
    order of the interface; no reader of the document depends on it. *)
Definition stringifyConfig (c : AgentConfig) : json :=
  JObject [ ("id", JString (id c));
            ("name", JString (name c));
            ("description", JString (description c));
            ("provider", JString (provider c));
            ("model", JString (model c));
            ("maxTokens", stringifyNumber (maxTokens c));
            ("temperature", stringifyNumber (temperature c));
            ("systemPrompt", JString (systemPrompt c)) ].

(** [handleDownloadSettings]: the document offered for download as
    [fda_agents_config.json], and the state after the log line. *)
Definition handleDownloadSettings (s : State) : json * State :=
  (JArray (stringifyConfig <$> agentConfigs s),
   addLog "Agent configurations downloaded." LogSuccess s).

(** [o[key]] on the property list of an object; [None] is [undefined]. *)
Fixpoint getProp (key : string) (props : list (string * json)) : option json :=
  match props with
  | [] => None
  | (k, v) :: rest => if String.eqb k key then Some v else getProp key rest
  end.

(** [!!v] for a parsed value. *)
Definition truthyJson (v : json) : bool :=
  match v with
  | JNull => false
  | JBool b => b
  | JNumber (S754_zero _) => false
  | JNumber S754_nan => false
  | JNumber _ => true
  | JString s => truthy s
  | JArray _ => true
  | JObject _ => true
  end.

(** The test [Array.isArray(parsed) && parsed.length > 0 && parsed[0].id]
    of the [try] block.  [Some items] when it is truthy; [None] when it is
    falsy (the [else] throws) or when [parsed[0]] is [null] (reading [.id]
    throws a TypeError): both land in the [catch]. *)
Definition acceptedSettings (parsed : json) : option (list json) :=
  match parsed with
  | JArray (first :: rest) =>
      match first with
      | JObject props =>
          match getProp "id" props with
          | Some v => if truthyJson v then Some (first :: rest) else None
          | None => None
          end
      | _ => None
      end
  | _ => None
  end.

Definition getString (key : string) (props : list (string * json)) : option string :=
  match getProp key props with
  | Some (JString s) => Some s
  | _ => None
  end.

Definition getNumber (key : string) (props : list (string * json)) : option number :=
  match getProp key props with
  | Some (JNumber n) => Some n
  | _ => None
  end.

(** [parsed] is stored as [AgentConfig[]] without a check.  The model holds
    typed configs only: an element is read back as the [AgentConfig] it
    denotes, [None] when it is not an object with the eight typed fields. *)
Definition asAgentConfig (v : json) : option AgentConfig :=
  match v with
  | JObject props =>
      i ← getString "id" props;
      n ← getString "name" props;
      d ← getString "description" props;
      p ← getString "provider" props;
      m ← getString "model" props;
      mt ← getNumber "maxTokens" props;
      t ← getNumber "temperature" props;
      sp ← getString "systemPrompt" props;
      Some (mkAgentConfig i n d p m mt t sp)
  | _ => None
  end.

(** [handleUploadSettings], with the [reader.onload] callback run on the
    file's content.  [file = None]: no file was chosen.  The result is
    [None] when an accepted document holds an element that is no
    [AgentConfig]: the source stores it and logs the success all the same
    ([onloadSettings] below is the callback on values), and the state leaves
    the types of the component. *)
Definition handleUploadSettings (file : option FileText) (s : State) : option State :=
  match file with
  | None => Some s
  | Some Unparsable => Some (addLog "Failed to parse settings file." LogError s)
  | Some (Document parsed) =>
      match acceptedSettings parsed with
      | None => Some (addLog "Failed to parse settings file." LogError s)
      | Some items =>
          match mapM asAgentConfig items with
          | None => None
          | Some configs =>
              Some (addLog "Agent configurations loaded successfully." LogSuccess
                           (setAgentConfigs (fun _ => configs) s))
          end
      end
  end.

(** The value an in-memory config is: the object with its eight
    properties, numbers as they are. *)
Definition valueOfConfig (c : AgentConfig) : json :=
  JObject [ ("id", JString (id c));
            ("name", JString (name c));
            ("description", JString (description c));
            ("provider", JString (provider c));
            ("model", JString (model c));
            ("maxTokens", JNumber (maxTokens c));
            ("temperature", JNumber (temperature c));
            ("systemPrompt", JString (systemPrompt c)) ].

(** The [reader.onload] callback of [handleUploadSettings] on the cell it
    writes, with no typing of what is stored: the [agentConfigs] cell holds
    values, [setAgentConfigs(parsed)] stores the parsed array whatever its
    elements are, and the result is the cell after the callback and the line
    it logs.  The callback calls nothing else. *)
Definition onloadSettings (file : FileText) (cell : list json) : list json * LogEntry :=
  match file with
  | Unparsable => (cell, mkLogEntry "Failed to parse settings file." LogError)
  | Document parsed =>
      match acceptedSettings parsed with
      | Some items =>
          (items, mkLogEntry "Agent configurations loaded successfully." LogSuccess)
      | None => (cell, mkLogEntry "Failed to parse settings file." LogError)
      end
  end.

(** ** The component as a transition system *)

(** [onUpdateKey] of the settings dialog in [App.tsx]. *)
Definition updateKey (key val : string) (s : State) : State :=
  mkState (agentConfigs s) (results s) (mana s) (experience s)
          (<[key := val]> (apiKeys s)) (logs s) (pending s).

Inductive Event :=
  | ClickRun (index : nat) (globalInput : string)
  | ProviderSettles (k : nat) (r : Settled) (now : string)
  | UpdateConfig (target : string) (fv : FieldValue)
  | SaveOutput (agentId newText : string)
  | Download
  | Upload (file : option FileText)
  | UpdateKey (key val : string).

Definition dispatch (AI_MODELS : list AIModel.t) (e : Event) (s : State) : option State :=
  match e with
  | ClickRun index globalInput => runButton globalInput index s
  | ProviderSettles k r now => settle k r now s
  | UpdateConfig target fv => Some (handleUpdateConfig AI_MODELS target fv s)
  | SaveOutput agentId newText => Some (handleSaveOutput agentId newText s)
  | Download => Some (snd (handleDownloadSettings s))
  | Upload file => handleUploadSettings file s
  | UpdateKey key val => Some (updateKey key val s)
  end.

Fixpoint dispatchAll (AI_MODELS : list AIModel.t) (es : list Event) (s : State)
    : option State :=
  match es with
  | [] => Some s
  | e :: rest =>
      match dispatch AI_MODELS e s with
      | None => None
      | Some s' => dispatchAll AI_MODELS rest s'
      end
  end.

(** The first render: [useState] initialisers of [App] and of
    [ReviewPipeline]. *)
Definition initialState (DEFAULT_PIPELINE_CONFIG : list AgentConfig) : State :=
  mkState DEFAULT_PIPELINE_CONFIG ∅ 60 1200
          (<["openai" := EmptyString]> (<["gemini" := EmptyString]>
             (<["anthropic" := EmptyString]> (<["xai" := EmptyString]> ∅))))
          [] [].

(** ** [ReviewPipeline.tsx]: what a card renders *)

(** The options of the Model select of a card: the entries of [AI_MODELS]
    with provider 'gemini' (the first [optgroup]), then those with provider
    'openai' (the second). *)
Definition modelOptions (AI_MODELS : list AIModel.t) : list AIModel.t :=
  List.filter (fun m => String.eqb (AIModel.provider m) "gemini") AI_MODELS
  ++ List.filter (fun m => String.eqb (AIModel.provider m) "openai") AI_MODELS.

(** [onChange] of that select on the card of [agent], the option of the
    entry [m] chosen: [handleUpdateConfig(agent.id, 'model', e.target.value)]
    with the option's [value={m.id}]. *)
Definition selectModel (AI_MODELS : list AIModel.t) (agent : AgentConfig)
    (m : AIModel.t) (s : State) : State :=
  handleUpdateConfig AI_MODELS (id agent) (For_model (AIModel.id m)) s.

(** The card of [agent], as far as its output area goes.  The header
    evaluates [result.status.toUpperCase()], which throws a TypeError for a
    stored record with no status: [None].  Otherwise
    [{result.output && (...)}] renders the output area, with its "Modify
    Output" editor, for a non-empty output only. *)
Definition outputShown (s : State) (agent : AgentConfig) : option bool :=
  match status (displayedResult s agent) with
  | None => None
  | Some _ => Some (truthy (output (displayedResult s agent)))
  end.

(** *** The preview of an output

    [result.output.replace(/\n/g, '<br/>').replace(/\*\*(.*?)\*\*/g,
    '<b>$1</b>')], handed to [dangerouslySetInnerHTML]. *)

Definition isLineFeed (c : ascii) : bool := Nat.eqb (nat_of_ascii c) 10.

(** The code units [.] does not match: LF and CR in the modelled range. *)
Definition isLineTerminator (c : ascii) : bool :=
  Nat.eqb (nat_of_ascii c) 10 || Nat.eqb (nat_of_ascii c) 13.

Definition isStar (c : ascii) : bool := Nat.eqb (nat_of_ascii c) 42.

(** [.replace(/\n/g, '<br/>')] *)
Fixpoint replaceLineFeeds (s : string) : string :=
  match s with
  | EmptyString => EmptyString
  | String c rest =>
      if isLineFeed c then "<br/>" +:+ replaceLineFeeds rest
      else String c (replaceLineFeeds rest)
  end.

(** [\*\*] at the head of [s]: what follows it. *)
Definition afterStars (s : string) : option string :=
  match s with
  | String c (String d after) => if isStar c && isStar d then Some after else None
  | _ => None
  end.

(** [(.*?)\*\*] at the head of [s]: the lazy group takes one more code
    unit only when the two stars do not match where it stands, and it takes
    no line terminator.  The result is the group and what follows the
    match. *)
Fixpoint lazyGroupThenStars (s : string) : option (string * string) :=
  match afterStars s with
  | Some after => Some (EmptyString, after)
  | None =>
      match s with
      | EmptyString => None
      | String c rest =>
          if isLineTerminator c then None
          else match lazyGroupThenStars rest with
               | Some (group, after) => Some (String c group, after)
               | None => None
               end
      end
  end.

(** The whole pattern at the head of [s]. *)
Definition matchBold (s : string) : option (string * string) :=
  match afterStars s with
  | Some after => lazyGroupThenStars after
  | None => None
  end.

(** The global replace: at each position, a match is replaced and the scan
    goes on after it; without a match the code unit is copied.  [fuel]
    bounds the number of positions visited; the length of the text is
    enough. *)
Fixpoint replaceBoldFrom (fuel : nat) (s : string) : string :=
  match fuel with
  | O => s
  | S fuel' =>
      match s with
      | EmptyString => EmptyString
      | String c rest =>
          match matchBold s with
          | Some (group, after) =>
              "<b>" +:+ group +:+ "</b>" +:+ replaceBoldFrom fuel' after
          | None => String c (replaceBoldFrom fuel' rest)
          end
      end
  end.

(** [.replace(/\*\*(.*?)\*\*/g, '<b>$1</b>')] *)
Definition replaceBold (s : string) : string :=
  replaceBoldFrom (String.length s) s.

(** The markup given to [dangerouslySetInnerHTML]. *)
Definition previewHtml (outputText : string) : string :=
  replaceBold (replaceLineFeeds outputText).

(** ** [App.tsx]: the theme *)

(** [ThemeMode.LIGHT] and [ThemeMode.DARK], the two members [App] uses. *)
Inductive ThemeMode := LIGHT | DARK.

(** The fields of a [FlowerTheme] that [App] reads. *)
Module FlowerTheme.
Record t := mk {
  id : string;
  nameEn : string;
  nameZh : string;
  primaryColor : string;
  secondaryColor : string;
  accentColor : string;
  bgColor : string;
  darkBgColor : string
}.
End FlowerTheme.

(** [FLOWER_THEMES.find(t => t.id === state.currentFlowerId) ||
    FLOWER_THEMES[0]]; [None] is [undefined]. *)
Definition currentTheme (FLOWER_THEMES : list FlowerTheme.t) (currentFlowerId : string)
    : option FlowerTheme.t :=
  match List.find (fun t => String.eqb (FlowerTheme.id t) currentFlowerId) FLOWER_THEMES with
  | Some t => Some t
  | None => FLOWER_THEMES !! 0
  end.

(** [document.documentElement], as far as the effect touches it: the
    tokens of its [classList] and the custom properties of its inline
    style. *)
Record Root := mkRoot {
  classList : gset string;
  style : gmap string string
}.

(** [root.style.setProperty(property, value)] *)
Definition setProperty (property value : string) (root : Root) : Root :=
  mkRoot (classList root) (<[property := value]> (style root)).

(** The body of the first [useEffect] of [App]. *)
Definition applyTheme (theme : FlowerTheme.t) (themeMode : ThemeMode) (root : Root) : Root :=
  let root1 := setProperty "--primary" (FlowerTheme.primaryColor theme) root in
  let root2 := setProperty "--secondary" (FlowerTheme.secondaryColor theme) root1 in
  let root3 := setProperty "--accent" (FlowerTheme.accentColor theme) root2 in
  match themeMode with
  | DARK =>
      setProperty "--bg-color" (FlowerTheme.darkBgColor theme)
                  (mkRoot (classList root3 ∪ {["dark"]}) (style root3))
  | LIGHT =>
      setProperty "--bg-color" (FlowerTheme.bgColor theme)
                  (mkRoot (classList root3 ∖ {["dark"]}) (style root3))
  end.

(** ** [App.tsx]: the tab that holds the pipeline *)

(** [App] renders [<ReviewPipeline .../>] only while
    [activeTab === 'pipeline'].  Leaving the tab unmounts the component and
    coming back mounts a new one: its [useState] cells start again from
    their initialisers, while the cells of [App] (the counters, the keys,
    the log) stay.  An [executeAgent] suspended in the old component stays
    suspended: [detached] holds those. *)
Record Tabbed := mkTabbed {
  mounted : State;
  detached : list Task
}.

(** Leaving the pipeline tab and coming back to it. *)
Definition remount (DEFAULT_PIPELINE_CONFIG : list AgentConfig) (a : Tabbed) : Tabbed :=
  let s := mounted a in
  mkTabbed (mkState DEFAULT_PIPELINE_CONFIG ∅ (mana s) (experience s) (apiKeys s)
                    (logs s) [])
           (detached a ++ pending s).

(** The rest of [executeAgent] after the [await] when its component is no
    longer mounted: its [setResults] calls update nothing, [onUpdateStats]
    and [onLog] are the functions of [App] and act as ever. *)
Definition resumeDetached (config : AgentConfig) (r : Settled) (s : State) : State :=
  match r with
  | Resolved response =>
      if negb (truthy response) then
        addLog ("Agent " +:+ name config +:+ " failed: " +:+ "Empty response") LogError s
      else
        addLog ("Agent " +:+ name config +:+ " completed.") LogSuccess (updateStats 0 50 s)
  | Rejected err_message =>
      addLog ("Agent " +:+ name config +:+ " failed: " +:+ err_message) LogError s
  end.

Inductive AppEvent :=
  | OnPipeline (e : Event)
  | SwitchTabs
  | DetachedSettles (k : nat) (r : Settled).

Definition appDispatch (DEFAULT_PIPELINE_CONFIG : list AgentConfig)
    (AI_MODELS : list AIModel.t) (e : AppEvent) (a : Tabbed) : option Tabbed :=
  match e with
  | OnPipeline e' =>
      match dispatch AI_MODELS e' (mounted a) with
      | Some s' => Some (mkTabbed s' (detached a))
      | None => None
      end
  | SwitchTabs => Some (remount DEFAULT_PIPELINE_CONFIG a)
  | DetachedSettles k r =>
      match detached a !! k with
      | Some t =>
          Some (mkTabbed (resumeDetached (task_config t) r (mounted a))
                         (delete k (detached a)))
      | None => None
      end
  end.

Fixpoint appDispatchAll (DEFAULT_PIPELINE_CONFIG : list AgentConfig)
    (AI_MODELS : list AIModel.t) (es : list AppEvent) (a : Tabbed) : option Tabbed :=
  match es with
  | [] => Some a
  | e :: rest =>
      match appDispatch DEFAULT_PIPELINE_CONFIG AI_MODELS e a with
      | None => None
      | Some a' => appDispatchAll DEFAULT_PIPELINE_CONFIG AI_MODELS rest a'
      end
  end.

(** ** Vocabulary of the properties *)

(** A text that is empty or made of white space only. *)
Fixpoint blank (s : string) : bool :=
  match s with
  | EmptyString => true
  | String c rest => isWhiteSpace c && blank rest
  end.

(** The experience a settled call earns. *)
Definition credit (r : Settled) : Z :=
  match r with
  | Resolved response => if truthy response then 50 else 0
  | Rejected _ => 0
  end.

(** The message the [catch] block records for a call that earns nothing. *)
Definition failureMessage (r : Settled) : string :=
  match r with
  | Resolved _ => "Empty response"
  | Rejected err_message => err_message
  end.

(** Every result that carries a timestamp has status completed. *)
Definition stamped (m : gmap string AgentResult) : Prop :=
  forall key r, m !! key = Some r -> is_Some (timestamp r) -> status r = Some Completed.

(** The result stored under [key] has status running. *)
Definition isRunning (s : State) (key : string) : Prop :=
  exists r, results s !! key = Some r /\ status r = Some Running.

(** The step ids of the suspended executions, oldest first. *)
Definition pendingIds (s : State) : list string :=
  (fun t => id (task_config t)) <$> pending s.

(** Every suspended execution belongs to a step that is running, and no
    step has two. *)
Definition oneExecutionPerStep (s : State) : Prop :=
  NoDup (pendingIds s) /\ forall key, key ∈ pendingIds s -> isRunning s key.

(** The [id] property of a parsed element, when it is an object that has
    one. *)
Definition idField (v : json) : option json :=
  match v with
  | JObject props => getProp "id" props
  | _ => None
  end.

(** The documents the import turns down: text that does not parse, a value
    that is no array, the empty array, an array whose first element has no
    [id] property, and an array whose first element has a falsy [id] (the
    empty string, a zero, [false], [null]). *)
Inductive refused : FileText -> Prop :=
  | refused_syntax : refused Unparsable
  | refused_not_array (v : json) :
      (forall items, v <> JArray items) -> refused (Document v)
  | refused_empty : refused (Document (JArray []))
  | refused_no_id (first : json) (rest : list json) :
      idField first = None -> refused (Document (JArray (first :: rest)))
  | refused_falsy_id (first : json) (rest : list json) (v : json) :
      idField first = Some v -> truthyJson v = false ->
      refused (Document (JArray (first :: rest))).

(** The numbers a JSON text can carry and [JSON.stringify] writes as they
    are: the finite ones, the negative zero apart. *)
Definition jsonNumber (n : number) : bool :=
  match n with
  | S754_finite _ _ _ => true
  | S754_zero negative => negb negative
  | _ => false
  end.

(** A config whose two numbers are such numbers. *)
Definition representable (c : AgentConfig) : bool :=
  jsonNumber (maxTokens c) && jsonNumber (temperature c).

(** Sample data for the closed instances below. *)
Definition sampleTokens : number := S754_finite false 1000 0.
Definition sampleTemperature : number := S754_finite false 1 (-1).

Definition agentA : AgentConfig :=
  mkAgentConfig "a" "Intake" "Summarises the submission" "gemini" "gemini-2.5-flash"
                sampleTokens sampleTemperature "Summarise.".

Definition agentB : AgentConfig :=
  mkAgentConfig "b" "Reviewer" "Reviews the summary" "openai" "gpt-4o-mini"
                sampleTokens sampleTemperature "Review.".

Definition sampleState : State := initialState [agentA; agentB].

(** The scenario of a pool of 15. *)
Definition lowState : State := mkState [agentA; agentB] ∅ 15 1200 ∅ [] [].

(** A first run of step 0 that succeeds, then a second run of it that the
    provider rejects. *)
Definition failedRerun : list Event :=
  [ ClickRun 0 "Device X indications";
    ProviderSettles 0 (Resolved "Summary A") "10:00:00";
    ClickRun 0 "Device X indications";
    ProviderSettles 0 (Rejected "quota exceeded") "10:01:00" ].

(** A table of two models for the closed instance. *)
Definition sampleModels : list AIModel.t :=
  [ AIModel.mk "gemini-2.5-flash" "Gemini 2.5 Flash" "gemini";
    AIModel.mk "gpt-4o-mini" "GPT-4o mini" "openai" ].

(** A complete config whose [id] is the empty string. *)
Definition agentNoId : AgentConfig :=
  mkAgentConfig EmptyString "Intake" "Summarises the submission" "gemini"
                "gemini-2.5-flash" sampleTokens sampleTemperature "Summarise.".

(** A session whose pipeline has no step. *)
Definition emptyPipeline : State := initialState [].

(** The scenario of a pool of 100. *)
Definition fullState : State := mkState [agentA; agentB] ∅ 100 1200 ∅ [] [].

(** The key of [results] an event may write: the id of the step run, of
    the step whose call settles, of the step whose output is edited. *)
Definition touchedKey (e : Event) (s : State) : option string :=
  match e with
  | ClickRun index _ => id <$> agentConfigs s !! index
  | ProviderSettles k _ _ => (fun t => id (task_config t)) <$> pending s !! k
  | SaveOutput agentId _ => Some agentId
  | _ => None
  end.

(** The events that may write [agentConfigs]. *)
Definition writesConfigs (e : Event) : bool :=
  match e with
  | UpdateConfig _ _ => true
  | Upload _ => true
  | _ => false
  end.

Definition isSettle (e : Event) : bool :=
  match e with
  | ProviderSettles _ _ _ => true
  | _ => false
  end.

(** The experience the provider's answers among the events earn. *)
Fixpoint earned (es : list Event) : Z :=
  match es with
  | [] => 0
  | ProviderSettles _ r _ :: rest => credit r + earned rest
  | _ :: rest => earned rest
  end.

(** The number of provider's answers among the events. *)
Fixpoint answers (es : list Event) : nat :=
  match es with
  | [] => 0
  | e :: rest => (if isSettle e then 1 else 0) + answers rest
  end.

(** A run of step 0, then a change of its model, of the key of its
    provider and an import that renames the steps. *)
Definition editsInFlight : list Event :=
  [ UpdateConfig "a" (For_model "gpt-4o-mini");
    UpdateKey "gemini" "key-2";
    Upload (Some (Document (JArray [stringifyConfig agentB]))) ].

(** The provider of a config is the one its model gives. *)
Definition followsModel (AI_MODELS : list AIModel.t) (c : AgentConfig) : Prop :=
  provider c = providerOrGemini (findModel AI_MODELS (model c)).

(** The four fields the configuration panel of a card edits. *)
Definition panelField (fv : FieldValue) : bool :=
  match fv with
  | For_model _ | For_maxTokens _ | For_temperature _ | For_systemPrompt _ => true
  | _ => false
  end.

Definition isForId (fv : FieldValue) : bool :=
  match fv with
  | For_id _ => true
  | _ => false
  end.

(** Two updates of the same field. *)
Definition sameField (fv1 fv2 : FieldValue) : bool :=
  match fv1, fv2 with
  | For_id _, For_id _ | For_name _, For_name _
  | For_description _, For_description _ | For_provider _, For_provider _
  | For_model _, For_model _ | For_maxTokens _, For_maxTokens _
  | For_temperature _, For_temperature _ | For_systemPrompt _, For_systemPrompt _ => true
  | _, _ => false
  end.

(** Numbers that [JSON.stringify] writes as [null]. *)
Definition notFinite (n : number) : bool :=
  match n with
  | S754_nan | S754_infinity _ => true
  | _ => false
  end.

(** Every code unit of the text satisfies [p]. *)
Fixpoint allChars (p : ascii -> bool) (s : string) : bool :=
  match s with
  | EmptyString => true
  | String c rest => p c && allChars p rest
  end.

Definition CR : string := String (ascii_of_nat 13) EmptyString.

(** Two themes for the closed instances. *)
Definition rose : FlowerTheme.t :=
  FlowerTheme.mk "rose" "Rose" "Rose" "#e11d48" "#fb7185" "#be123c" "#fff1f2" "#1f0a10".

Definition lotus : FlowerTheme.t :=
  FlowerTheme.mk "lotus" "Lotus" "Lotus" "#db2777" "#f472b6" "#9d174d" "#fdf2f8" "#1a0a14".

(** A config list with a first step whose id is not empty: what the test
    of the import asks of a list. *)
Definition hasFirstId (configs : list AgentConfig) : Prop :=
  exists first rest, configs = first :: rest /\ id first <> EmptyString.

(** The events the interface sends: [handleUpdateConfig] is called for the
    four fields of the panel only. *)
Definition fromInterface (e : Event) : bool :=
  match e with
  | UpdateConfig _ fv => panelField fv
  | _ => true
  end.

(** A config whose two numbers are finite. *)
Definition finiteNumbers (c : AgentConfig) : bool :=
  negb (notFinite (maxTokens c)) && negb (notFinite (temperature c)).

(** [n === m] on numbers: the two zeros are equal, NaN equals nothing. *)
Definition strictEquals (n m : number) : bool :=
  match n, m with
  | S754_zero _, S754_zero _ => true
  | S754_infinity a, S754_infinity b => Bool.eqb a b
  | S754_finite a p e, S754_finite b q f => Bool.eqb a b && Pos.eqb p q && Z.eqb e f
  | _, _ => false
  end.

(** Field for field, the two configs are [===]. *)
Definition sameConfig (c c' : AgentConfig) : Prop :=
  id c = id c' /\ name c = name c' /\ description c = description c' /\
  provider c = provider c' /\ model c = model c' /\
  strictEquals (maxTokens c) (maxTokens c') = true /\
  strictEquals (temperature c) (temperature c') = true /\
  systemPrompt c = systemPrompt c'.

(** The integers on which the arithmetic of JavaScript numbers is exact:
    those up to [Number.MAX_SAFE_INTEGER] in size. *)
Definition safeInteger (z : Z) : Prop := (- 2 ^ 53 < z < 2 ^ 53)%Z.

(** The calls in flight, of the mounted component and of earlier ones. *)
Definition inFlight (a : Tabbed) : nat :=
  length (pending (mounted a)) + length (detached a).

Definition isAppSettle (e : AppEvent) : bool :=
  match e with
  | OnPipeline e' => isSettle e'
  | DetachedSettles _ _ => true
  | SwitchTabs => false
  end.

(** The number of provider's answers among the events of the app. *)
Fixpoint appAnswers (es : list AppEvent) : nat :=
  match es with
  | [] => 0
  | e :: rest => (if isAppSettle e then 1 else 0) + appAnswers rest
  end.

(** The events of the app the interface sends. *)
Definition appFromInterface (e : AppEvent) : bool :=
  match e with
  | OnPipeline e' => fromInterface e'
  | _ => true
  end.

(** A run of step 0, a tab switch, and a run of step 0 again. *)
Definition runSwitchRun : list AppEvent :=
  [ OnPipeline (ClickRun 0 "Device X indications");
    SwitchTabs;
    OnPipeline (ClickRun 0 "Device X indications") ].

(** The first render of the app on the sample pipeline. *)
Definition sampleApp : Tabbed := mkTabbed sampleState [].

(** Case analysis on the event that [H : dispatch _ e _ = Some _] handles. *)
Ltac by_event e H :=
  destruct e as [index gi|k r now|target fv|agentId newText| |file|key val];
  simpl in H.

(** ** White space *)

Lemma trimStart_blank (s : string) : blank s = true -> trimStart s = EmptyString.
Proof.
  induction s as [|c rest IH]; simpl; [reflexivity|].
  intros [Hc Hrest]%andb_prop. rewrite Hc. auto.
Qed.

Lemma trimStart_empty (s : string) : trimStart s = EmptyString -> blank s = true.
Proof.
  induction s as [|c rest IH]; simpl; [reflexivity|].
  destruct (isWhiteSpace c); [auto | discriminate].
Qed.

Lemma trimStart_head (s : string) (c : ascii) (rest : string) :
  trimStart s = String c rest -> isWhiteSpace c = false.
Proof.
  induction s as [|d tl IH]; simpl; [discriminate|].
  destruct (isWhiteSpace d) eqn:Hd; [exact IH|].
  intros [= <- _]. exact Hd.
Qed.

Lemma trimEnd_head (c : ascii) (rest : string) :
  isWhiteSpace c = false -> trimEnd (String c rest) <> EmptyString.
Proof.
  intros Hc. simpl. rewrite Hc. destruct (trimEnd rest); discriminate.
Qed.

(** [trim] leaves nothing exactly of the blank texts. *)
Lemma trim_blank (s : string) : truthy (trim s) = false <-> blank s = true.
Proof.
  unfold trim. split.
  - intros Ht. destruct (trimStart s) as [|c rest] eqn:Hs.
    + now apply trimStart_empty.
    + apply trimStart_head in Hs.
      pose proof (trimEnd_head c rest Hs) as Hne.
      destruct (trimEnd (String c rest)); [congruence | discriminate].
  - intros Hb. now rewrite (trimStart_blank s Hb).
Qed.

(** ** The resource counters *)

Lemma executeAgent_mana (gi : string) (index : nat) (s s' : State) :
  executeAgent gi index s = Some s' ->
  mana s' = mana s \/ ((20 <= mana s)%Z /\ mana s' = (mana s - 20)%Z).
Proof.
  unfold executeAgent. intros H.
  destruct (agentConfigs s !! index) as [config|]; [|discriminate].
  destruct (determineInput gi index s) as [input|]; [|injection H as <-; now left].
  destruct (negb (truthy (trim input))); [injection H as <-; now left|].
  destruct (mana s <? 20)%Z eqn:Hm; injection H as <-; [now left|].
  right. apply Z.ltb_ge in Hm. simpl. split; [exact Hm | lia].
Qed.

Lemma resume_mana (config : AgentConfig) (r : Settled) (now : string) (s : State) :
  (0 <= mana s)%Z -> mana (resume config r now s) = mana s.
Proof.
  intros Hm. destruct r as [response|msg]; simpl; [|reflexivity].
  destruct (truthy response); simpl; [lia | reflexivity].
Qed.

Lemma resume_experience (config : AgentConfig) (r : Settled) (now : string) (s : State) :
  experience (resume config r now s) = (experience s + credit r)%Z.
Proof.
  destruct r as [response|msg]; simpl; [|lia].
  destruct (truthy response); simpl; lia.
Qed.

Lemma handleUploadSettings_mana (file : option FileText) (s s' : State) :
  handleUploadSettings file s = Some s' -> mana s' = mana s.
Proof.
  unfold handleUploadSettings. intros H.
  destruct file as [[|parsed]|]; try (injection H as <-; reflexivity).
  destruct (acceptedSettings parsed) as [items|]; [|injection H as <-; reflexivity].
  destruct (mapM asAgentConfig items); [injection H as <-; reflexivity | discriminate].
Qed.

(** One event leaves the pool as it is or takes exactly 20 from a pool
    that holds at least 20. *)
Lemma dispatch_mana (AI_MODELS : list AIModel.t) (e : Event) (s s' : State) :
  (0 <= mana s)%Z ->
  dispatch AI_MODELS e s = Some s' ->
  mana s' = mana s \/ ((20 <= mana s)%Z /\ mana s' = (mana s - 20)%Z).
Proof.
  intros Hm H. by_event e H.
  - unfold runButton in H.
    destruct (agentConfigs s !! index) as [agent|]; [|discriminate].
    destruct (decide _); [injection H as <-; now left|].
    eapply executeAgent_mana; eauto.
  - unfold settle in H. destruct (pending s !! k) as [t|]; [|discriminate].
    injection H as <-. left. now rewrite resume_mana.
  - injection H as <-. now left.
  - injection H as <-. now left.
  - injection H as <-. now left.
  - left. eapply handleUploadSettings_mana; eauto.
  - injection H as <-. now left.
Qed.

Lemma dispatchAll_mana (AI_MODELS : list AIModel.t) (es : list Event) (s s' : State) :
  (0 <= mana s)%Z ->
  dispatchAll AI_MODELS es s = Some s' ->
  (0 <= mana s' <= mana s)%Z.
Proof.
  revert s. induction es as [|e rest IH]; simpl; intros s Hm H.
  - injection H as <-. lia.
  - destruct (dispatch AI_MODELS e s) as [s1|] eqn:He; [|discriminate].
    pose proof (dispatch_mana _ _ _ _ Hm He) as Hstep.
    assert (0 <= mana s1)%Z as Hm1 by lia.
    specialize (IH s1 Hm1 H). lia.
Qed.

(** ** Claims about one run *)

Lemma executeAgent_started (gi : string) (index : nat) (s : State)
    (config : AgentConfig) (input : string) :
  agentConfigs s !! index = Some config ->
  determineInput gi index s = Some input ->
  blank input = false ->
  (20 <= mana s)%Z ->
  executeAgent gi index s =
    Some (mkState (agentConfigs s)
            (<[id config := mkAgentResult (Some Running)
                              (outputOrEmpty (results s) (id config)) None None]> (results s))
            (mana s - 20)%Z (experience s + 0)%Z (apiKeys s)
            (logs s ++ [mkLogEntry ("Agent " +:+ name config +:+ " started...") LogInfo])
            (pending s ++ [mkTask config (buildCall config input s)])).
Proof.
  intros Hc Hi Hb Hm. unfold executeAgent. rewrite Hc, Hi.
  assert (truthy (trim input) = true) as ->.
  { destruct (truthy (trim input)) eqn:Ht; [reflexivity|].
    apply trim_blank in Ht. congruence. }
  simpl. assert ((mana s <? 20)%Z = false) as -> by (apply Z.ltb_ge; exact Hm).
  unfold setPending, addLog, setResults, updateStats. simpl.
  f_equal. f_equal. lia.
Qed.

(** C6: a run of step 0 on a seed text that is empty or all white space
    returns after the one error line "Input for <name> is empty."; the pool,
    the experience, every result, the configs and the suspended calls are as
    before. *)
Theorem C6_blank_seed_rejected (gi : string) (s : State) (config : AgentConfig) :
  agentConfigs s !! 0 = Some config ->
  blank gi = true ->
  exists s',
    executeAgent gi 0 s = Some s' /\
    logs s' = logs s ++ [mkLogEntry ("Input for " +:+ name config +:+ " is empty.") LogError] /\
    mana s' = mana s /\ experience s' = experience s /\
    results s' = results s /\ pending s' = pending s /\
    agentConfigs s' = agentConfigs s.
Proof.
  intros Hc Hb. unfold executeAgent. rewrite Hc. simpl.
  apply trim_blank in Hb. rewrite Hb. simpl.
  eexists. split; [reflexivity|]. simpl. repeat split.
Qed.

Lemma C6_blank_seed_rejected_witness :
  exists s', executeAgent (" " +:+ LF) 0 sampleState = Some s' /\
             mana s' = 60%Z /\ results s' = ∅.
Proof.
  destruct (C6_blank_seed_rejected (" " +:+ LF) sampleState agentA)
    as (s' & He & _ & Hm & _ & Hr & _); [reflexivity | reflexivity |].
  exists s'. repeat split; assumption.
Defined.

(** C3: in every state the events lead to from a state with a pool of at
    least 0, the pool is at least 0; an event leaves it as it is or takes
    exactly 20 from a pool holding at least 20; and a run whose input is
    resolved and not blank while the pool is below 20 returns after the one
    error line "Not enough Mana!", the pool, the results and the suspended
    calls as before. *)
Theorem C3_insufficient_mana_refused
    (AI_MODELS : list AIModel.t) (es : list Event) (s0 s : State) :
  (0 <= mana s0)%Z ->
  dispatchAll AI_MODELS es s0 = Some s ->
  (0 <= mana s)%Z /\
  (forall e s', dispatch AI_MODELS e s = Some s' ->
     mana s' = mana s \/ ((20 <= mana s)%Z /\ mana s' = (mana s - 20)%Z)) /\
  (forall gi index config input,
     agentConfigs s !! index = Some config ->
     determineInput gi index s = Some input ->
     blank input = false ->
     (mana s < 20)%Z ->
     exists s',
       executeAgent gi index s = Some s' /\
       logs s' = logs s ++ [mkLogEntry "Not enough Mana!" LogError] /\
       mana s' = mana s /\ experience s' = experience s /\
       results s' = results s /\ pending s' = pending s).
Proof.
  intros Hm0 Hrun.
  pose proof (dispatchAll_mana _ _ _ _ Hm0 Hrun) as [Hm _].
  split; [exact Hm|]. split.
  - intros e s' He. eapply dispatch_mana; eauto.
  - intros gi index config input Hc Hi Hb Hlow.
    unfold executeAgent. rewrite Hc, Hi.
    assert (truthy (trim input) = true) as ->.
    { destruct (truthy (trim input)) eqn:Ht; [reflexivity|].
      apply trim_blank in Ht. congruence. }
    simpl. assert ((mana s <? 20)%Z = true) as -> by (apply Z.ltb_lt; exact Hlow).
    eexists. split; [reflexivity|]. simpl. repeat split.
Qed.

Lemma C3_insufficient_mana_refused_witness :
  exists s', executeAgent "Device X indications" 0 lowState = Some s' /\
             mana s' = 15%Z /\ results s' = ∅.
Proof.
  destruct (C3_insufficient_mana_refused [] [] lowState lowState) as (_ & _ & H);
    [simpl; lia | reflexivity |].
  destruct (H "Device X indications" 0 agentA "Device X indications")
    as (s' & He & _ & Hm & _ & Hr & _);
    [reflexivity | reflexivity | reflexivity | simpl; lia |].
  exists s'. repeat split; assumption.
Defined.



(** ** The dependency of a step on the one before it *)

(** C1, as stated, fails: after a successful run of step 0 and a failed
    second run of it, the result of step 0 has status error and still holds
    its output; a run of step 1 then logs no dependency error: it takes 20
    from the pool, sets the result of step 1 to running and calls the
    provider. *)
Lemma C1_counterexample :
  exists s r s',
    dispatchAll [] failedRerun sampleState = Some s /\
    results s !! "a" = Some r /\
    status r = Some Error /\ output r = "Summary A" /\
    mana s = 20%Z /\
    executeAgent "Device X indications" 1 s = Some s' /\
    mana s' = 0%Z /\
    status <$> results s' !! "b" = Some (Some Running) /\
    call_prompt <$> (task_call <$> pending s' !! 0) =
      Some ("Review." +:+ LF +:+ LF +:+ "[TASK INPUT]:" +:+ LF +:+ "Summary A").
Proof.
  eexists _, _, _.
  split; [vm_compute; reflexivity|].
  split; [vm_compute; reflexivity|].
  split; [reflexivity|]. split; [reflexivity|]. split; [reflexivity|].
  split; [vm_compute; reflexivity|].
  repeat split.
Qed.

(** C1, amended: the test is on the stored output of step i-1 alone.  When
    step i-1 has no result or its output is empty, a run of step i returns
    after the one error line "Cannot run <name>. Previous agent has no
    output.", the pool, the results and the suspended calls as before.  When
    step i-1 has a result with a non-empty output, that output is the input
    of the run, whatever the status of the result. *)
Theorem C1_dependency_on_output (gi : string) (i : nat) (s : State)
    (config prevConfig : AgentConfig) :
  agentConfigs s !! S i = Some config ->
  agentConfigs s !! i = Some prevConfig ->
  ((results s !! id prevConfig = None \/
    exists r, results s !! id prevConfig = Some r /\ output r = EmptyString) ->
   exists s',
     executeAgent gi (S i) s = Some s' /\
     logs s' = logs s ++
       [mkLogEntry ("Cannot run " +:+ name config +:+ ". Previous agent has no output.")
                   LogError] /\
     mana s' = mana s /\ experience s' = experience s /\
     results s' = results s /\ pending s' = pending s) /\
  (forall r,
     results s !! id prevConfig = Some r ->
     output r <> EmptyString ->
     determineInput gi (S i) s = Some (output r)).
Proof.
  intros Hc Hp. split.
  - intros Hno.
    assert (determineInput gi (S i) s = None) as Hd.
    { simpl. rewrite Hp. destruct Hno as [-> | (r & -> & ->)]; reflexivity. }
    unfold executeAgent. rewrite Hc, Hd.
    eexists. split; [reflexivity|]. simpl. repeat split.
  - intros r Hr Hout. simpl. rewrite Hp, Hr.
    destruct (output r); [congruence | reflexivity].
Qed.

Lemma C1_dependency_on_output_witness :
  exists s',
    executeAgent "Device X indications" 1 sampleState = Some s' /\
    mana s' = 60%Z /\ results s' = ∅.
Proof.
  destruct (C1_dependency_on_output "Device X indications" 0 sampleState agentB agentA)
    as [Hno _]; [reflexivity | reflexivity |].
  destruct Hno as (s' & He & _ & Hm & _ & Hr & _); [left; reflexivity|].
  exists s'. repeat split; assumption.
Defined.

(** ** Manual edits of an output *)

(** C8: [handleSaveOutput] stores the new text as the output of the result
    under the given id and keeps the status, the error and the timestamp of
    that result (for an id with no result, a result with the output alone is
    created); the results of the other ids, the pool, the experience, the
    configs, the log and the suspended calls are as before. *)
Theorem C8_override_changes_output_only (agentId newText : string) (s : State) :
  let s' := handleSaveOutput agentId newText s in
  (forall r, results s !! agentId = Some r ->
     exists r', results s' !! agentId = Some r' /\
                output r' = newText /\ status r' = status r /\
                error r' = error r /\ timestamp r' = timestamp r) /\
  (results s !! agentId = None ->
     results s' !! agentId = Some (mkAgentResult None newText None None)) /\
  (forall other, other <> agentId -> results s' !! other = results s !! other) /\
  mana s' = mana s /\ experience s' = experience s /\
  agentConfigs s' = agentConfigs s /\ logs s' = logs s /\ pending s' = pending s.
Proof.
  simpl. split; [|split; [|split]].
  - intros r Hr. rewrite lookup_insert_eq, Hr. eexists. split; [reflexivity|].
    simpl. repeat split.
  - intros Hr. rewrite lookup_insert_eq, Hr. reflexivity.
  - intros other Hne. rewrite lookup_insert_ne by congruence. reflexivity.
  - repeat split.
Qed.

(** ** The timestamp of a result *)

Lemma stamped_insert (m : gmap string AgentResult) (key : string) (r : AgentResult) :
  stamped m ->
  (is_Some (timestamp r) -> status r = Some Completed) ->
  stamped (<[key := r]> m).
Proof.
  intros Hm Hr key' r' Hlook. destruct (decide (key = key')) as [->|Hne].
  - rewrite lookup_insert_eq in Hlook. injection Hlook as <-. exact Hr.
  - rewrite lookup_insert_ne in Hlook by exact Hne. eapply Hm; eauto.
Qed.

Lemma not_is_Some_None {A : Type} (P : Prop) : is_Some (@None A) -> P.
Proof. intros [x Hx]. discriminate Hx. Qed.

Lemma executeAgent_stamped (gi : string) (index : nat) (s s' : State) :
  stamped (results s) -> executeAgent gi index s = Some s' -> stamped (results s').
Proof.
  unfold executeAgent. intros Hs H.
  destruct (agentConfigs s !! index) as [config|]; [|discriminate].
  destruct (determineInput gi index s) as [input|]; [|injection H as <-; exact Hs].
  destruct (negb (truthy (trim input))); [injection H as <-; exact Hs|].
  destruct (mana s <? 20)%Z; injection H as <-; [exact Hs|].
  simpl. apply stamped_insert; [exact Hs|]. simpl. apply not_is_Some_None.
Qed.

Lemma resume_stamped (config : AgentConfig) (r : Settled) (now : string) (s : State) :
  stamped (results s) -> stamped (results (resume config r now s)).
Proof.
  intros Hs. destruct r as [response|msg]; simpl.
  - destruct (truthy response); simpl; apply stamped_insert; try exact Hs; simpl.
    + reflexivity.
    + apply not_is_Some_None.
  - apply stamped_insert; [exact Hs|]. simpl. apply not_is_Some_None.
Qed.

Lemma handleUploadSettings_frame (file : option FileText) (s s' : State) :
  handleUploadSettings file s = Some s' ->
  results s' = results s /\ pending s' = pending s.
Proof.
  unfold handleUploadSettings. intros H.
  destruct file as [[|parsed]|]; try (injection H as <-; split; reflexivity).
  destruct (acceptedSettings parsed) as [items|]; [|injection H as <-; split; reflexivity].
  destruct (mapM asAgentConfig items); [injection H as <-; split; reflexivity | discriminate].
Qed.

Lemma dispatch_stamped (AI_MODELS : list AIModel.t) (e : Event) (s s' : State) :
  stamped (results s) -> dispatch AI_MODELS e s = Some s' -> stamped (results s').
Proof.
  intros Hs H. by_event e H.
  - unfold runButton in H.
    destruct (agentConfigs s !! index) as [agent|]; [|discriminate].
    destruct (decide _); [injection H as <-; exact Hs|].
    eapply executeAgent_stamped; eauto.
  - unfold settle in H. destruct (pending s !! k) as [t|]; [|discriminate].
    injection H as <-. apply resume_stamped. exact Hs.
  - injection H as <-. exact Hs.
  - injection H as <-. simpl. apply stamped_insert; [exact Hs|].
    unfold withOutput. destruct (results s !! agentId) as [r|] eqn:Hr; simpl.
    + intros Ht. eapply Hs; eauto.
    + apply not_is_Some_None.
  - injection H as <-. exact Hs.
  - apply handleUploadSettings_frame in H as [-> _]. exact Hs.
  - injection H as <-. exact Hs.
Qed.

Lemma dispatchAll_stamped (AI_MODELS : list AIModel.t) (es : list Event) (s s' : State) :
  stamped (results s) -> dispatchAll AI_MODELS es s = Some s' -> stamped (results s').
Proof.
  revert s. induction es as [|e rest IH]; simpl; intros s Hs H.
  - injection H as <-. exact Hs.
  - destruct (dispatch AI_MODELS e s) as [s1|] eqn:He; [|discriminate].
    eapply IH; [|exact H]. eapply dispatch_stamped; eauto.
Qed.

(** C10: in every state the events lead to from a state where only
    completed results carry a timestamp, only completed results carry a
    timestamp.  A run that starts writes the record (running, previous
    output) with no error and no timestamp; a call that fails writes
    (error, previous output, message) with no timestamp; a call that
    succeeds writes (completed, response, timestamp) with no error.  So a
    run of a step that has a result, failing at once, leaves (error, old
    output, message) with no timestamp. *)
Theorem C10_timestamp_only_when_completed
    (AI_MODELS : list AIModel.t) (es : list Event) (s0 s : State) :
  stamped (results s0) ->
  dispatchAll AI_MODELS es s0 = Some s ->
  stamped (results s) /\
  (forall gi index config input,
     agentConfigs s !! index = Some config ->
     determineInput gi index s = Some input ->
     blank input = false ->
     (20 <= mana s)%Z ->
     exists s1,
       executeAgent gi index s = Some s1 /\
       results s1 !! id config =
         Some (mkAgentResult (Some Running) (outputOrEmpty (results s) (id config))
                             None None) /\
       forall old r now,
         results s !! id config = Some old ->
         credit r = 0%Z ->
         results (resume config r now s1) !! id config =
           Some (mkAgentResult (Some Error) (output old) (Some (failureMessage r)) None)) /\
  (forall config r now,
     credit r = 0%Z ->
     results (resume config r now s) !! id config =
       Some (mkAgentResult (Some Error) (outputOrEmpty (results s) (id config))
                           (Some (failureMessage r)) None)) /\
  (forall config response now,
     response <> EmptyString ->
     results (resume config (Resolved response) now s) !! id config =
       Some (mkAgentResult (Some Completed) response None (Some now))).
Proof.
  intros Hs0 Hrun.
  assert (forall config r now t, credit r = 0%Z ->
            results (resume config r now t) !! id config =
              Some (mkAgentResult (Some Error) (outputOrEmpty (results t) (id config))
                                  (Some (failureMessage r)) None)) as Hfail.
  { intros config r now t Hr. destruct r as [response|msg]; simpl.
    - simpl in Hr. destruct (truthy response); [discriminate|].
      simpl. apply lookup_insert_eq.
    - apply lookup_insert_eq. }
  split; [eapply dispatchAll_stamped; eauto|]. split; [|split].
  - intros gi index config input Hc Hi Hb Hm.
    eexists. split; [apply executeAgent_started; eassumption|].
    simpl. split; [apply lookup_insert_eq|].
    intros old r now Hold Hr. rewrite (Hfail config r now _ Hr). simpl.
    unfold outputOrEmpty. rewrite lookup_insert_eq. simpl. rewrite Hold. reflexivity.
  - intros config r now Hr. apply Hfail. exact Hr.
  - intros config response now Hne. simpl.
    destruct response; [congruence|]. simpl. apply lookup_insert_eq.
Qed.

Lemma C10_timestamp_only_when_completed_witness :
  exists s r,
    dispatchAll [] failedRerun sampleState = Some s /\
    stamped (results s) /\
    results s !! "a" = Some r /\
    output r = "Summary A" /\ timestamp r = None.
Proof.
  destruct (dispatchAll [] failedRerun sampleState) as [s|] eqn:Hrun;
    [|vm_compute in Hrun; discriminate Hrun].
  destruct (C10_timestamp_only_when_completed [] failedRerun sampleState s) as [Hst _];
    [intros key r Hr; change (results sampleState) with (∅ : gmap string AgentResult) in Hr;
     rewrite lookup_empty in Hr; discriminate Hr | exact Hrun |].
  vm_compute in Hrun. injection Hrun as <-.
  eexists _, _. split; [reflexivity|]. split; [exact Hst|].
  split; [vm_compute; reflexivity|]. split; reflexivity.
Defined.

(** ** Overlapping executions of one step *)

Lemma executeAgent_oneExecutionPerStep (gi : string) (index : nat) (s s' : State)
    (config : AgentConfig) :
  agentConfigs s !! index = Some config ->
  ~ isRunning s (id config) ->
  oneExecutionPerStep s ->
  executeAgent gi index s = Some s' ->
  oneExecutionPerStep s'.
Proof.
  unfold executeAgent. intros Hc Hidle [Hnd Hrun] H. rewrite Hc in H.
  destruct (determineInput gi index s) as [input|];
    [|injection H as <-; split; assumption].
  destruct (negb (truthy (trim input))); [injection H as <-; split; assumption|].
  destruct (mana s <? 20)%Z; injection H as <-; [split; assumption|].
  unfold oneExecutionPerStep, pendingIds. simpl. rewrite fmap_app. simpl. split.
  - apply NoDup_app. split; [exact Hnd|]. split; [|apply NoDup_singleton].
    intros key Hkey Hin. apply list_elem_of_singleton in Hin. subst key.
    apply Hidle, Hrun, Hkey.
  - intros key Hkey. apply elem_of_app in Hkey as [Hkey|Hkey].
    + destruct (decide (id config = key)) as [<-|Hne].
      * exfalso. apply Hidle, Hrun, Hkey.
      * destruct (Hrun key Hkey) as (r0 & Hr0 & Hst). exists r0. simpl.
        rewrite lookup_insert_ne by exact Hne. split; assumption.
    + apply list_elem_of_singleton in Hkey. subst key.
      eexists. simpl. rewrite lookup_insert_eq. split; reflexivity.
Qed.

Lemma resume_results_ne (config : AgentConfig) (r : Settled) (now : string)
    (s : State) (key : string) :
  id config <> key ->
  results (resume config r now s) !! key = results s !! key.
Proof.
  intros Hne. destruct r as [response|msg]; simpl.
  - destruct (truthy response); simpl; rewrite lookup_insert_ne by exact Hne; reflexivity.
  - rewrite lookup_insert_ne by exact Hne. reflexivity.
Qed.

Lemma resume_pending (config : AgentConfig) (r : Settled) (now : string) (s : State) :
  pending (resume config r now s) = pending s.
Proof.
  destruct r as [response|msg]; simpl; [|reflexivity].
  destruct (truthy response); reflexivity.
Qed.

Lemma NoDup_delete_lookup {A : Type} (l : list A) (k : nat) (x : A) :
  NoDup l -> l !! k = Some x -> x ∉ delete k l.
Proof.
  intros Hnd Hk. rewrite delete_take_drop.
  rewrite <- (take_drop_middle l k x Hk) in Hnd.
  apply NoDup_app in Hnd as (_ & Hleft & Hright).
  apply NoDup_cons in Hright as [Hx _].
  intros [Hin|Hin]%elem_of_app; [|contradiction].
  apply (Hleft x Hin). left.
Qed.

Lemma settle_oneExecutionPerStep (k : nat) (r : Settled) (now : string) (s s' : State) :
  oneExecutionPerStep s -> settle k r now s = Some s' -> oneExecutionPerStep s'.
Proof.
  unfold settle. intros [Hnd Hrun] H.
  destruct (pending s !! k) as [t|] eqn:Hk; [|discriminate]. injection H as <-.
  assert (pendingIds s !! k = Some (id (task_config t))) as Hidk.
  { unfold pendingIds. rewrite list_lookup_fmap, Hk. reflexivity. }
  unfold oneExecutionPerStep, pendingIds. rewrite resume_pending. simpl.
  rewrite list_fmap_delete. fold (pendingIds s). split.
  - apply (sublist_NoDup _ _ Hnd (sublist_delete (pendingIds s) k)).
  - intros key Hkey.
    assert (id (task_config t) <> key) as Hne.
    { intros <-. eapply NoDup_delete_lookup; eauto. }
    apply list_elem_of_delete_inv in Hkey.
    destruct (Hrun key Hkey) as (r0 & Hr0 & Hst). exists r0.
    rewrite resume_results_ne by exact Hne. split; assumption.
Qed.

Lemma handleSaveOutput_oneExecutionPerStep (agentId newText : string) (s : State) :
  oneExecutionPerStep s -> oneExecutionPerStep (handleSaveOutput agentId newText s).
Proof.
  intros [Hnd Hrun]. split; [exact Hnd|].
  intros key Hkey. destruct (Hrun key Hkey) as (r0 & Hr0 & Hst).
  unfold isRunning. simpl. destruct (decide (agentId = key)) as [->|Hne].
  - rewrite lookup_insert_eq, Hr0. eexists. split; [reflexivity|]. exact Hst.
  - rewrite lookup_insert_ne by exact Hne. exists r0. split; assumption.
Qed.

Lemma runButton_disabled (gi : string) (index : nat) (s : State) (agent : AgentConfig) :
  agentConfigs s !! index = Some agent ->
  isRunning s (id agent) ->
  runButton gi index s = Some s.
Proof.
  intros Hc (r & Hr & Hst). unfold runButton, displayedResult. rewrite Hc, Hr.
  destruct (decide (status r = Some Running)); [reflexivity | contradiction].
Qed.

Lemma dispatch_oneExecutionPerStep (AI_MODELS : list AIModel.t) (e : Event) (s s' : State) :
  oneExecutionPerStep s -> dispatch AI_MODELS e s = Some s' -> oneExecutionPerStep s'.
Proof.
  intros Hs H. by_event e H.
  - unfold runButton in H.
    destruct (agentConfigs s !! index) as [agent|] eqn:Hc; [|discriminate].
    destruct (decide _) as [Hst|Hst]; [injection H as <-; exact Hs|].
    eapply executeAgent_oneExecutionPerStep; eauto.
    intros (r & Hr & Hrun). apply Hst. unfold displayedResult. rewrite Hr. exact Hrun.
  - eapply settle_oneExecutionPerStep; eauto.
  - injection H as <-. exact Hs.
  - injection H as <-. apply handleSaveOutput_oneExecutionPerStep. exact Hs.
  - injection H as <-. exact Hs.
  - apply handleUploadSettings_frame in H as [Hr Hp].
    destruct Hs as [Hnd Hrun]. unfold oneExecutionPerStep, pendingIds, isRunning in *.
    rewrite Hr, Hp. split; assumption.
  - injection H as <-. exact Hs.
Qed.

Lemma dispatchAll_oneExecutionPerStep
    (AI_MODELS : list AIModel.t) (es : list Event) (s s' : State) :
  oneExecutionPerStep s -> dispatchAll AI_MODELS es s = Some s' -> oneExecutionPerStep s'.
Proof.
  revert s. induction es as [|e rest IH]; simpl; intros s Hs H.
  - injection H as <-. exact Hs.
  - destruct (dispatch AI_MODELS e s) as [s1|] eqn:He; [|discriminate].
    eapply IH; [|exact H]. eapply dispatch_oneExecutionPerStep; eauto.
Qed.

(** ** Updates of a config *)

Lemma findModel_first (before after : list AIModel.t) (m : AIModel.t) (value : string) :
  (forall x, x ∈ before -> AIModel.id x <> value) ->
  AIModel.id m = value ->
  findModel (before ++ m :: after) value = Some m.
Proof.
  intros Hbefore Hm. unfold findModel.
  induction before as [|x rest IH]; simpl.
  - apply String.eqb_eq in Hm. rewrite Hm. reflexivity.
  - assert (AIModel.id x <> value) as Hx by (apply Hbefore; left).
    apply String.eqb_neq in Hx. rewrite Hx. apply IH.
    intros y Hy. apply Hbefore. right. exact Hy.
Qed.

Lemma findModel_none (AI_MODELS : list AIModel.t) (value : string) :
  (forall x, x ∈ AI_MODELS -> AIModel.id x <> value) ->
  findModel AI_MODELS value = None.
Proof.
  intros Hall. unfold findModel.
  induction AI_MODELS as [|x rest IH]; simpl; [reflexivity|].
  assert (AIModel.id x <> value) as Hx by (apply Hall; left).
  apply String.eqb_neq in Hx. rewrite Hx. apply IH.
  intros y Hy. apply Hall. right. exact Hy.
Qed.

Lemma truthy_nonempty (s : string) : s <> EmptyString -> truthy s = true.
Proof. destruct s; [congruence | reflexivity]. Qed.

(** C7: [handleUpdateConfig(id, 'model', value)] keeps the length and the
    order of the list; a config with that id gets [model = value] and, as
    provider, the provider of the first entry of [AI_MODELS] whose id is
    the value (when that provider is a non-empty string) or 'gemini' when no
    entry has that id, its other six fields as before; a config with another
    id is as before; with no config of that id the list is as before; the
    results, the pool and the experience are as before. *)
Theorem C7_model_update
    (AI_MODELS : list AIModel.t) (target value : string) (s : State) :
  let s' := handleUpdateConfig AI_MODELS target (For_model value) s in
  length (agentConfigs s') = length (agentConfigs s) /\
  (forall i c,
     agentConfigs s !! i = Some c -> id c = target ->
     exists c',
       agentConfigs s' !! i = Some c' /\
       model c' = value /\
       (forall before m after,
          AI_MODELS = before ++ m :: after ->
          (forall x, x ∈ before -> AIModel.id x <> value) ->
          AIModel.id m = value ->
          AIModel.provider m <> EmptyString ->
          provider c' = AIModel.provider m) /\
       ((forall x, x ∈ AI_MODELS -> AIModel.id x <> value) -> provider c' = "gemini") /\
       id c' = id c /\ name c' = name c /\ description c' = description c /\
       maxTokens c' = maxTokens c /\ temperature c' = temperature c /\
       systemPrompt c' = systemPrompt c) /\
  (forall i c,
     agentConfigs s !! i = Some c -> id c <> target ->
     agentConfigs s' !! i = Some c) /\
  ((forall c, c ∈ agentConfigs s -> id c <> target) ->
   agentConfigs s' = agentConfigs s) /\
  results s' = results s /\ mana s' = mana s /\ experience s' = experience s.
Proof.
  simpl. split; [apply length_fmap|]. split; [|split; [|split]].
  - intros i c Hc Hid. rewrite list_lookup_fmap, Hc. simpl.
    apply String.eqb_eq in Hid. rewrite Hid. simpl.
    eexists. split; [reflexivity|]. simpl. split; [reflexivity|]. split; [|split].
    + intros before m after -> Hbefore Hm Hp.
      rewrite (findModel_first before after m value Hbefore Hm). simpl.
      rewrite (truthy_nonempty _ Hp). reflexivity.
    + intros Hnone. rewrite (findModel_none AI_MODELS value Hnone). reflexivity.
    + repeat split.
  - intros i c Hc Hid. rewrite list_lookup_fmap, Hc. simpl.
    apply String.eqb_neq in Hid. rewrite Hid. reflexivity.
  - intros Hnone. induction (agentConfigs s) as [|c rest IH]; simpl; [reflexivity|].
    assert (id c <> target) as Hc by (apply Hnone; left).
    apply String.eqb_neq in Hc. rewrite Hc. simpl. f_equal.
    apply IH. intros c' Hc'. apply Hnone. right. exact Hc'.
  - repeat split.
Qed.

Lemma C7_model_update_witness :
  exists c',
    agentConfigs (handleUpdateConfig sampleModels "a" (For_model "gpt-4o-mini") sampleState)
      !! 0 = Some c' /\
    model c' = "gpt-4o-mini" /\ provider c' = "openai" /\ name c' = "Intake".
Proof.
  destruct (C7_model_update sampleModels "a" "gpt-4o-mini" sampleState)
    as (_ & Hmatch & _).
  destruct (Hmatch 0 agentA eq_refl eq_refl)
    as (c' & Hc' & Hmodel & Hfound & _ & _ & Hname & _).
  exists c'. split; [exact Hc'|]. split; [exact Hmodel|]. split; [|exact Hname].
  apply (Hfound [AIModel.mk "gemini-2.5-flash" "Gemini 2.5 Flash" "gemini"]
                (AIModel.mk "gpt-4o-mini" "GPT-4o mini" "openai") []).
  - reflexivity.
  - intros x Hx. apply list_elem_of_singleton in Hx. subst x. simpl. discriminate.
  - reflexivity.
  - simpl. discriminate.
Defined.

(** ** The settings file *)

Lemma acceptedSettings_refused (parsed : json) :
  refused (Document parsed) -> acceptedSettings parsed = None.
Proof.
  intros H. remember (Document parsed) as file eqn:Hfile.
  destruct H as [|v Hv| |first rest Hid|first rest v Hid Hv];
    try discriminate Hfile; injection Hfile as <-.
  - destruct v as [| | | |items|]; try reflexivity. now destruct (Hv items).
  - reflexivity.
  - destruct first; simpl in *; try reflexivity. rewrite Hid. reflexivity.
  - destruct first; simpl in *; try discriminate. rewrite Hid, Hv. reflexivity.
Qed.

Lemma acceptedSettings_accepts (first : json) (rest : list json) (v : json) :
  idField first = Some v -> truthyJson v = true ->
  acceptedSettings (JArray (first :: rest)) = Some (first :: rest).
Proof.
  intros Hid Hv. destruct first; simpl in *; try discriminate.
  rewrite Hid, Hv. reflexivity.
Qed.

Lemma refused_or_accepted (file : FileText) :
  refused file \/
  exists first rest v,
    file = Document (JArray (first :: rest)) /\
    idField first = Some v /\ truthyJson v = true.
Proof.
  destruct file as [|parsed]; [left; apply refused_syntax|].
  destruct parsed as [| | | |items|];
    try (left; apply refused_not_array; intros items' Heq; discriminate Heq).
  destruct items as [|first rest]; [left; apply refused_empty|].
  destruct (idField first) as [v|] eqn:Hid; [|left; now apply refused_no_id].
  destruct (truthyJson v) eqn:Hv.
  - right. exists first, rest, v. repeat split; assumption.
  - left. eapply refused_falsy_id; eauto.
Qed.

(** ** Export then import *)

Lemma stringifyNumber_jsonNumber (n : number) :
  jsonNumber n = true -> stringifyNumber n = JNumber n.
Proof. destruct n as [[|]| | |]; simpl; intros H; try discriminate H; reflexivity. Qed.

Lemma asAgentConfig_stringifyConfig (c : AgentConfig) :
  representable c = true -> asAgentConfig (stringifyConfig c) = Some c.
Proof.
  destruct c as [i n d p m mt t sp]. unfold representable. simpl.
  intros [Hmt Ht]%andb_prop.
  unfold stringifyConfig. simpl.
  rewrite (stringifyNumber_jsonNumber mt Hmt), (stringifyNumber_jsonNumber t Ht).
  reflexivity.
Qed.

Lemma mapM_asAgentConfig_export (configs : list AgentConfig) :
  Forall (fun c => representable c = true) configs ->
  mapM asAgentConfig (stringifyConfig <$> configs) = Some configs.
Proof.
  intros Hall. apply mapM_fmap_Forall_Some.
  eapply Forall_impl; [exact Hall|]. apply asAgentConfig_stringifyConfig.
Qed.

(** ** Further properties of a run *)

(** X1: [executeAgent] has no test on the status of its own step: called
    for a step whose result is running, with an input that is resolved and
    not blank and a pool of at least 20, it takes 20 from the pool and
    suspends on one more provider call.  Only the disabled Run button keeps
    it from being called then. *)
Theorem X1_executeAgent_has_no_status_test (gi : string) (index : nat) (s : State)
    (config : AgentConfig) (input : string) :
  agentConfigs s !! index = Some config ->
  isRunning s (id config) ->
  determineInput gi index s = Some input ->
  blank input = false ->
  (20 <= mana s)%Z ->
  exists s',
    executeAgent gi index s = Some s' /\
    mana s' = (mana s - 20)%Z /\
    pending s' = pending s ++ [mkTask config (buildCall config input s)].
Proof.
  intros Hc _ Hi Hb Hm.
  eexists. split; [apply executeAgent_started; eassumption|].
  simpl. split; reflexivity.
Qed.

Lemma X1_executeAgent_has_no_status_test_witness :
  exists s s',
    dispatchAll [] [ClickRun 0 "Device X indications"] sampleState = Some s /\
    isRunning s "a" /\
    executeAgent "Device X indications" 0 s = Some s' /\
    mana s' = 20%Z /\ length (pending s') = 2.
Proof.
  destruct (dispatchAll [] [ClickRun 0 "Device X indications"] sampleState)
    as [s|] eqn:Hrun; [|vm_compute in Hrun; discriminate Hrun].
  assert (agentConfigs s !! 0 = Some agentA /\ isRunning s "a" /\
          length (pending s) = 1 /\ mana s = 40%Z) as (Hc & Hr & Hp & Hm).
  { vm_compute in Hrun. injection Hrun as <-.
    split; [reflexivity|]. split; [|split; reflexivity].
    eexists. split; [vm_compute; reflexivity | reflexivity]. }
  destruct (X1_executeAgent_has_no_status_test "Device X indications" 0 s agentA
              "Device X indications" Hc Hr)
    as (s' & He & Hm' & Hp'); [reflexivity | reflexivity | lia |].
  exists s, s'. split; [reflexivity|]. split; [exact Hr|]. split; [exact He|].
  split; [lia|]. rewrite Hp', length_app, Hp. reflexivity.
Defined.

(** ** The log, the frame of an event, the calls in flight *)

Lemma executeAgent_logs (gi : string) (index : nat) (s s' : State) :
  executeAgent gi index s = Some s' -> exists line, logs s' = logs s ++ [line].
Proof.
  unfold executeAgent. intros H.
  destruct (agentConfigs s !! index) as [config|]; [|discriminate].
  destruct (determineInput gi index s) as [input|];
    [|injection H as <-; eexists; reflexivity].
  destruct (negb (truthy (trim input))); [injection H as <-; eexists; reflexivity|].
  destruct (mana s <? 20)%Z; injection H as <-; eexists; reflexivity.
Qed.

Lemma resume_logs (config : AgentConfig) (r : Settled) (now : string) (s : State) :
  exists line, logs (resume config r now s) = logs s ++ [line].
Proof.
  destruct r as [response|msg]; simpl; [|eexists; reflexivity].
  destruct (truthy response); simpl; eexists; reflexivity.
Qed.

Lemma dispatch_logs (AI_MODELS : list AIModel.t) (e : Event) (s s' : State) :
  dispatch AI_MODELS e s = Some s' ->
  logs s' = logs s \/ exists line, logs s' = logs s ++ [line].
Proof.
  intros H. by_event e H.
  - unfold runButton in H.
    destruct (agentConfigs s !! index) as [agent|]; [|discriminate].
    destruct (decide _); [injection H as <-; now left|].
    right. eapply executeAgent_logs; eauto.
  - unfold settle in H. destruct (pending s !! k) as [t|]; [|discriminate].
    injection H as <-. right.
    destruct (resume_logs (task_config t) r now (setPending (delete k) s)) as [line Hl].
    exists line. exact Hl.
  - injection H as <-. now left.
  - injection H as <-. now left.
  - injection H as <-. right. eexists. reflexivity.
  - unfold handleUploadSettings in H.
    destruct file as [[|parsed]|]; try (injection H as <-).
    + right. eexists. reflexivity.
    + destruct (acceptedSettings parsed) as [items|];
        [|injection H as <-; right; eexists; reflexivity].
      destruct (mapM asAgentConfig items); [|discriminate].
      injection H as <-. right. eexists. reflexivity.
    + now left.
  - injection H as <-. now left.
Qed.

(** X3: the execution log only grows: over any sequence of events the
    lines logged before stay, in order, at the head of the log, and each
    event adds at most one line. *)
Theorem X3_log_append_only
    (AI_MODELS : list AIModel.t) (es : list Event) (s s' : State) :
  dispatchAll AI_MODELS es s = Some s' ->
  logs s `prefix_of` logs s' /\ length (logs s') <= length (logs s) + length es.
Proof.
  revert s. induction es as [|e rest IH]; simpl; intros s H.
  - injection H as <-. split; [reflexivity | lia].
  - destruct (dispatch AI_MODELS e s) as [s1|] eqn:He; [|discriminate].
    destruct (IH s1 H) as [Hpre Hlen].
    destruct (dispatch_logs _ _ _ _ He) as [Hsame | [line Hline]].
    + rewrite Hsame in *. split; [exact Hpre | lia].
    + rewrite Hline in *. split.
      * etransitivity; [|exact Hpre]. apply prefix_app_r. reflexivity.
      * rewrite length_app in Hlen. simpl in Hlen. lia.
Qed.

Lemma X3_log_append_only_witness :
  exists s',
    dispatchAll [] failedRerun sampleState = Some s' /\
    logs sampleState `prefix_of` logs s' /\ length (logs s') <= 4.
Proof.
  destruct (dispatchAll [] failedRerun sampleState) as [s'|] eqn:Hrun;
    [|vm_compute in Hrun; discriminate Hrun].
  destruct (X3_log_append_only [] failedRerun sampleState s' Hrun) as [Hpre Hlen].
  exists s'. split; [reflexivity|]. split; [exact Hpre | exact Hlen].
Defined.

Lemma executeAgent_results_ne (gi : string) (index : nat) (s s' : State)
    (config : AgentConfig) (key : string) :
  agentConfigs s !! index = Some config ->
  id config <> key ->
  executeAgent gi index s = Some s' ->
  results s' !! key = results s !! key.
Proof.
  unfold executeAgent. intros Hc Hne H. rewrite Hc in H.
  destruct (determineInput gi index s) as [input|]; [|injection H as <-; reflexivity].
  destruct (negb (truthy (trim input))); [injection H as <-; reflexivity|].
  destruct (mana s <? 20)%Z; injection H as <-; [reflexivity|].
  simpl. rewrite lookup_insert_ne by exact Hne. reflexivity.
Qed.

Lemma executeAgent_configs (gi : string) (index : nat) (s s' : State) :
  executeAgent gi index s = Some s' -> agentConfigs s' = agentConfigs s.
Proof.
  unfold executeAgent. intros H.
  destruct (agentConfigs s !! index) as [config|]; [|discriminate].
  destruct (determineInput gi index s) as [input|]; [|injection H as <-; reflexivity].
  destruct (negb (truthy (trim input))); [injection H as <-; reflexivity|].
  destruct (mana s <? 20)%Z; injection H as <-; reflexivity.
Qed.

Lemma resume_configs (config : AgentConfig) (r : Settled) (now : string) (s : State) :
  agentConfigs (resume config r now s) = agentConfigs s.
Proof.
  destruct r as [response|msg]; simpl; [|reflexivity].
  destruct (truthy response); reflexivity.
Qed.

(** X4: an event writes at most one entry of [results]: the one of the
    step that is run, of the step whose call settles, or of the step whose
    output is edited; every other entry is as before, and config updates,
    imports, exports and key changes write none.  Only config updates and
    imports change the config list. *)
Theorem X4_event_frame (AI_MODELS : list AIModel.t) (e : Event) (s s' : State) :
  dispatch AI_MODELS e s = Some s' ->
  (forall key, touchedKey e s <> Some key -> results s' !! key = results s !! key) /\
  (writesConfigs e = false -> agentConfigs s' = agentConfigs s).
Proof.
  intros H. by_event e H.
  - unfold runButton in H.
    destruct (agentConfigs s !! index) as [agent|] eqn:Hc; [|discriminate].
    destruct (decide _).
    + injection H as <-. split; reflexivity.
    + split.
      * intros key Hkey. eapply executeAgent_results_ne; eauto.
        intros Heq. apply Hkey. simpl. rewrite Hc. simpl. congruence.
      * intros _. eapply executeAgent_configs; eauto.
  - unfold settle in H. destruct (pending s !! k) as [t|] eqn:Hk; [|discriminate].
    injection H as <-. split.
    + intros key Hkey. rewrite resume_results_ne; [reflexivity|].
      intros Heq. apply Hkey. simpl. rewrite Hk. simpl. congruence.
    + intros _. rewrite resume_configs. reflexivity.
  - injection H as <-. split; [reflexivity | discriminate].
  - injection H as <-. split; [|reflexivity].
    intros key Hkey. simpl in *. rewrite lookup_insert_ne; [reflexivity | congruence].
  - injection H as <-. split; reflexivity.
  - apply handleUploadSettings_frame in H as [-> _]. split; [reflexivity | discriminate].
  - injection H as <-. split; reflexivity.
Qed.

Lemma X4_event_frame_witness :
  exists s',
    dispatch [] (ClickRun 0 "Device X indications") sampleState = Some s' /\
    results s' !! "b" = results sampleState !! "b" /\
    agentConfigs s' = [agentA; agentB].
Proof.
  destruct (dispatch [] (ClickRun 0 "Device X indications") sampleState)
    as [s'|] eqn:Hrun; [|vm_compute in Hrun; discriminate Hrun].
  destruct (X4_event_frame [] _ sampleState s' Hrun) as [Hres Hcfg].
  exists s'. split; [reflexivity|]. split.
  - apply Hres. simpl. intros Heq. discriminate Heq.
  - apply Hcfg. reflexivity.
Defined.

Lemma executeAgent_pending (gi : string) (index : nat) (s s' : State) :
  executeAgent gi index s = Some s' ->
  pending s' = pending s \/ exists t, pending s' = pending s ++ [t].
Proof.
  unfold executeAgent. intros H.
  destruct (agentConfigs s !! index) as [config|]; [|discriminate].
  destruct (determineInput gi index s) as [input|]; [|injection H as <-; now left].
  destruct (negb (truthy (trim input))); [injection H as <-; now left|].
  destruct (mana s <? 20)%Z; injection H as <-; [now left|].
  right. eexists. reflexivity.
Qed.

Lemma dispatch_pending (AI_MODELS : list AIModel.t) (e : Event) (s s' : State) :
  isSettle e = false ->
  dispatch AI_MODELS e s = Some s' ->
  pending s' = pending s \/ exists t, pending s' = pending s ++ [t].
Proof.
  intros Hnot H. by_event e H; try discriminate Hnot;
    try (injection H as <-; now left).
  - unfold runButton in H.
    destruct (agentConfigs s !! index) as [agent|]; [|discriminate].
    destruct (decide _); [injection H as <-; now left|].
    eapply executeAgent_pending; eauto.
  - apply handleUploadSettings_frame in H as [_ ->]. now left.
Qed.

(** X5: a call in flight is not touched by what happens while the
    provider works.  Over any events other than provider answers (runs of
    steps, config updates, imports, exports, output edits, key changes) the
    suspended execution keeps its place, its captured config and the
    arguments of its call; when it then settles with a non-empty response,
    the completed result is stored under the id the step had when the run
    started, and the config list is not changed by it. *)
Theorem X5_call_in_flight_is_fixed
    (AI_MODELS : list AIModel.t) (es : list Event) (s s' : State) (k : nat) (t : Task) :
  pending s !! k = Some t ->
  forallb (fun e => negb (isSettle e)) es = true ->
  dispatchAll AI_MODELS es s = Some s' ->
  pending s' !! k = Some t /\
  forall response now,
    response <> EmptyString ->
    exists s'',
      settle k (Resolved response) now s' = Some s'' /\
      results s'' !! id (task_config t) =
        Some (mkAgentResult (Some Completed) response None (Some now)) /\
      agentConfigs s'' = agentConfigs s'.
Proof.
  intros Hk Hes Hrun.
  assert (pending s' !! k = Some t) as Hk'.
  { revert s Hk Hrun. induction es as [|e rest IH]; simpl; intros s Hk Hrun.
    - injection Hrun as <-. exact Hk.
    - simpl in Hes. apply andb_prop in Hes as [He Hrest].
      destruct (dispatch AI_MODELS e s) as [s1|] eqn:Hd; [|discriminate].
      apply (IH Hrest s1); [|exact Hrun].
      apply negb_true_iff in He.
      destruct (dispatch_pending _ _ _ _ He Hd) as [-> | [t1 ->]]; [exact Hk|].
      apply lookup_app_l_Some. exact Hk. }
  split; [exact Hk'|].
  intros response now Hne. unfold settle. rewrite Hk'.
  eexists. split; [reflexivity|]. split.
  - simpl. rewrite (truthy_nonempty _ Hne). simpl. apply lookup_insert_eq.
  - rewrite resume_configs. reflexivity.
Qed.

Lemma X5_call_in_flight_is_fixed_witness :
  exists s s' s'' t,
    executeAgent "Device X indications" 0 sampleState = Some s /\
    pending s !! 0 = Some t /\
    dispatchAll sampleModels editsInFlight s = Some s' /\
    agentConfigs s' = [agentB] /\
    pending s' !! 0 = Some t /\
    settle 0 (Resolved "Summary A") "10:00:00" s' = Some s'' /\
    output <$> results s'' !! "a" = Some "Summary A".
Proof.
  destruct (executeAgent "Device X indications" 0 sampleState) as [s|] eqn:Hs;
    [|vm_compute in Hs; discriminate Hs].
  destruct (pending s !! 0) as [t|] eqn:Ht;
    [|vm_compute in Hs; injection Hs as <-; vm_compute in Ht; discriminate Ht].
  destruct (dispatchAll sampleModels editsInFlight s) as [s'|] eqn:Hs';
    [|vm_compute in Hs; injection Hs as <-; vm_compute in Hs'; discriminate Hs'].
  destruct (X5_call_in_flight_is_fixed sampleModels editsInFlight s s' 0 t Ht eq_refl Hs')
    as [Ht' Hsettle].
  destruct (Hsettle "Summary A" "10:00:00") as (s'' & Hs'' & Hres & _); [discriminate|].
  exists s, s', s'', t.
  split; [reflexivity|]. split; [exact Ht|]. split; [exact Hs'|].
  split.
  { vm_compute in Hs. injection Hs as <-. vm_compute in Hs'. injection Hs' as <-.
    reflexivity. }
  split; [exact Ht'|]. split; [exact Hs''|].
  assert (id (task_config t) = "a") as Hid.
  { vm_compute in Hs. injection Hs as <-. vm_compute in Ht. injection Ht as <-.
    reflexivity. }
  rewrite Hid in Hres. rewrite Hres. reflexivity.
Defined.

(** ** The accounts of the two counters *)

Lemma executeAgent_experience (gi : string) (index : nat) (s s' : State) :
  executeAgent gi index s = Some s' -> experience s' = experience s.
Proof.
  unfold executeAgent. intros H.
  destruct (agentConfigs s !! index) as [config|]; [|discriminate].
  destruct (determineInput gi index s) as [input|]; [|injection H as <-; reflexivity].
  destruct (negb (truthy (trim input))); [injection H as <-; reflexivity|].
  destruct (mana s <? 20)%Z; injection H as <-; [reflexivity|]. simpl. lia.
Qed.

Lemma handleUploadSettings_experience (file : option FileText) (s s' : State) :
  handleUploadSettings file s = Some s' -> experience s' = experience s.
Proof.
  unfold handleUploadSettings. intros H.
  destruct file as [[|parsed]|]; try (injection H as <-; reflexivity).
  destruct (acceptedSettings parsed) as [items|]; [|injection H as <-; reflexivity].
  destruct (mapM asAgentConfig items); [injection H as <-; reflexivity | discriminate].
Qed.

(** X6: the experience counter is the sum of what the provider's answers
    earned: over any sequence of events it grows by 50 for each call that
    settled with a non-empty response and by nothing else; no event lowers
    it. *)
Theorem X6_experience_account
    (AI_MODELS : list AIModel.t) (es : list Event) (s s' : State) :
  dispatchAll AI_MODELS es s = Some s' ->
  experience s' = (experience s + earned es)%Z /\ (experience s <= experience s')%Z.
Proof.
  intros H.
  assert (experience s' = (experience s + earned es)%Z /\ (0 <= earned es)%Z) as [He Hpos];
    [|split; [exact He | lia]].
  revert s H. induction es as [|e rest IH]; simpl; intros s H.
  - injection H as <-. split; lia.
  - destruct (dispatch AI_MODELS e s) as [s1|] eqn:Hd; [|discriminate].
    destruct (IH s1 H) as [IHe IHpos]. rewrite IHe. clear IH IHe H.
    by_event e Hd.
    + unfold runButton in Hd.
      destruct (agentConfigs s !! index) as [agent|]; [|discriminate].
      destruct (decide _); [injection Hd as <-; split; lia|].
      apply executeAgent_experience in Hd. split; lia.
    + unfold settle in Hd. destruct (pending s !! k) as [t|]; [|discriminate].
      injection Hd as <-. rewrite resume_experience. simpl.
      assert (0 <= credit r)%Z.
      { destruct r as [response|msg]; simpl; [destruct (truthy response)|]; lia. }
      split; lia.
    + injection Hd as <-. simpl. split; lia.
    + injection Hd as <-. simpl. split; lia.
    + injection Hd as <-. simpl. split; lia.
    + apply handleUploadSettings_experience in Hd. split; lia.
    + injection Hd as <-. simpl. split; lia.
Qed.

Lemma X6_experience_account_witness :
  exists s',
    dispatchAll [] failedRerun sampleState = Some s' /\
    experience s' = 1250%Z.
Proof.
  destruct (dispatchAll [] failedRerun sampleState) as [s'|] eqn:Hrun;
    [|vm_compute in Hrun; discriminate Hrun].
  destruct (X6_experience_account [] failedRerun sampleState s' Hrun) as [He _].
  exists s'. split; [reflexivity|]. rewrite He. reflexivity.
Defined.

Lemma dispatch_calls (AI_MODELS : list AIModel.t) (e : Event) (s s' : State) :
  (0 <= mana s)%Z ->
  dispatch AI_MODELS e s = Some s' ->
  (mana s' + 20 * (Z.of_nat (length (pending s')) + Z.of_nat (if isSettle e then 1 else 0))
   = mana s + 20 * Z.of_nat (length (pending s)))%Z.
Proof.
  intros Hm H. by_event e H; try (injection H as <-; simpl; lia).
  - unfold runButton in H.
    destruct (agentConfigs s !! index) as [agent|]; [|discriminate].
    destruct (decide _); [injection H as <-; simpl; lia|].
    unfold executeAgent in H.
    destruct (agentConfigs s !! index) as [config|]; [|discriminate].
    destruct (determineInput gi index s) as [input|]; [|injection H as <-; simpl; lia].
    destruct (negb (truthy (trim input))); [injection H as <-; simpl; lia|].
    destruct (mana s <? 20)%Z eqn:Hlow; injection H as <-; [simpl; lia|].
    apply Z.ltb_ge in Hlow. simpl. rewrite length_app. simpl. lia.
  - unfold settle in H. destruct (pending s !! k) as [t|] eqn:Hk; [|discriminate].
    injection H as <-. rewrite resume_mana by (simpl; lia). rewrite resume_pending.
    simpl. pose proof (lookup_lt_Some _ _ _ Hk) as Hlt.
    rewrite length_delete by (rewrite Hk; eauto). lia.
  - pose proof (handleUploadSettings_mana _ _ _ H) as ->.
    apply handleUploadSettings_frame in H as [_ ->]. simpl. lia.
Qed.

(** X7: every provider call costs 20 and nothing gives the pool back.
    Over any sequence of events from a pool of at least 0, the pool has
    gone down by exactly 20 for each call issued (the calls still in flight
    and the ones answered, less those in flight at the start); so the number
    of calls issued is at most the twentieth of the pool at the start. *)
Theorem X7_pool_account
    (AI_MODELS : list AIModel.t) (es : list Event) (s s' : State) :
  (0 <= mana s)%Z ->
  dispatchAll AI_MODELS es s = Some s' ->
  (mana s' + 20 * (Z.of_nat (length (pending s')) + Z.of_nat (answers es))
   = mana s + 20 * Z.of_nat (length (pending s)))%Z /\
  (20 * (Z.of_nat (length (pending s')) + Z.of_nat (answers es)
         - Z.of_nat (length (pending s))) <= mana s)%Z.
Proof.
  intros Hm H.
  assert (mana s' + 20 * (Z.of_nat (length (pending s')) + Z.of_nat (answers es))
          = mana s + 20 * Z.of_nat (length (pending s)))%Z as Hacc.
  { revert s Hm H. induction es as [|e rest IH]; simpl; intros s Hm H.
    - injection H as <-. lia.
    - destruct (dispatch AI_MODELS e s) as [s1|] eqn:Hd; [|discriminate].
      pose proof (dispatch_calls _ _ _ _ Hm Hd) as Hstep.
      assert (0 <= mana s1)%Z as Hm1.
      { destruct (dispatch_mana _ _ _ _ Hm Hd) as [-> | [? ->]]; lia. }
      specialize (IH s1 Hm1 H).
      destruct (isSettle e); lia. }
  split; [exact Hacc|].
  pose proof (dispatchAll_mana _ _ _ _ Hm H) as [Hpos _]. lia.
Qed.

Lemma X7_pool_account_witness :
  exists s',
    dispatchAll [] failedRerun sampleState = Some s' /\
    mana s' = 20%Z /\ length (pending s') = 0.
Proof.
  destruct (dispatchAll [] failedRerun sampleState) as [s'|] eqn:Hrun;
    [|vm_compute in Hrun; discriminate Hrun].
  destruct (X7_pool_account [] failedRerun sampleState s') as [Hacc _];
    [simpl; lia | exact Hrun |].
  assert (length (pending s') = 0) as Hp.
  { vm_compute in Hrun. injection Hrun as <-. reflexivity. }
  exists s'. split; [reflexivity|]. split; [|exact Hp].
  rewrite Hp in Hacc. simpl in Hacc. lia.
Defined.

(** ** From one step to the next *)

Lemma blank_false_nonempty (s : string) : blank s = false -> s <> EmptyString.
Proof. intros H ->. discriminate H. Qed.

(** X2: the answer of a step is the input of the next.  When the call of
    step i settles with a response that is not blank and step i+1 is run
    next with at least 20 in the pool, the provider is called with the
    system prompt of step i+1, two line feeds, "[TASK INPUT]:", a line feed
    and the response as it came, with the model, token limit, temperature
    and provider of the config of step i+1 and the key stored for that
    provider; the two steps together cost 20 more and earned 50. *)
Theorem X2_answer_feeds_next_step (gi : string) (s : State) (k : nat) (t : Task)
    (response now : string) (i : nat) (prevConfig config : AgentConfig) :
  pending s !! k = Some t ->
  agentConfigs s !! i = Some prevConfig ->
  id prevConfig = id (task_config t) ->
  agentConfigs s !! S i = Some config ->
  blank response = false ->
  (20 <= mana s)%Z ->
  exists s1 s2,
    settle k (Resolved response) now s = Some s1 /\
    executeAgent gi (S i) s1 = Some s2 /\
    pending s2 = delete k (pending s) ++
      [mkTask config
         (mkCall (systemPrompt config +:+ LF +:+ LF +:+ "[TASK INPUT]:" +:+ LF +:+ response)
                 (apiKeys s !! provider config)
                 (model config) (maxTokens config) (temperature config)
                 (provider config))] /\
    mana s2 = (mana s - 20)%Z /\
    experience s2 = (experience s + 50)%Z.
Proof.
  intros Hk Hprev Hid Hc Hb Hm.
  pose proof (blank_false_nonempty _ Hb) as Hne.
  pose proof (truthy_nonempty _ Hne) as Htr.
  unfold settle. rewrite Hk.
  set (s1 := resume (task_config t) (Resolved response) now (setPending (delete k) s)).
  assert (agentConfigs s1 = agentConfigs s) as Hcfg
    by (unfold s1; rewrite resume_configs; reflexivity).
  assert (results s1 !! id prevConfig =
            Some (mkAgentResult (Some Completed) response None (Some now))) as Hres.
  { unfold s1. simpl. rewrite Htr. simpl. rewrite Hid. apply lookup_insert_eq. }
  assert (mana s1 = mana s) as Hmana by (unfold s1; rewrite resume_mana; simpl; lia).
  assert (experience s1 = (experience s + 50)%Z) as Hxp.
  { unfold s1. rewrite resume_experience. simpl. rewrite Htr. reflexivity. }
  assert (pending s1 = delete k (pending s)) as Hpend
    by (unfold s1; rewrite resume_pending; reflexivity).
  assert (apiKeys s1 = apiKeys s) as Hkeys.
  { unfold s1. simpl. rewrite Htr. reflexivity. }
  assert (determineInput gi (S i) s1 = Some response) as Hin.
  { simpl. rewrite Hcfg, Hprev, Hres. simpl. rewrite Htr. reflexivity. }
  exists s1. eexists. split; [reflexivity|]. split.
  - apply (executeAgent_started gi (S i) s1 config response);
      [rewrite Hcfg; exact Hc | exact Hin | exact Hb | lia].
  - simpl. unfold buildCall. rewrite Hpend, Hkeys, Hmana, Hxp.
    split; [reflexivity|]. split; lia.
Qed.

Lemma X2_answer_feeds_next_step_witness :
  exists s s1 s2 call,
    executeAgent "Device X indications" 0 fullState = Some s /\
    settle 0 (Resolved "Summary A") "10:00:00" s = Some s1 /\
    executeAgent "Device X indications" 1 s1 = Some s2 /\
    task_call <$> pending s2 !! 0 = Some call /\
    call_prompt call = "Review." +:+ LF +:+ LF +:+ "[TASK INPUT]:" +:+ LF +:+ "Summary A" /\
    mana s2 = 60%Z /\ experience s2 = 1250%Z.
Proof.
  destruct (executeAgent "Device X indications" 0 fullState) as [s|] eqn:Hs;
    [|vm_compute in Hs; discriminate Hs].
  assert (pending s = [mkTask agentA (buildCall agentA "Device X indications" fullState)] /\
          agentConfigs s = [agentA; agentB] /\
          mana s = 80%Z /\ experience s = 1200%Z) as (Hp0 & Hc0 & Hm0 & Hx0).
  { vm_compute in Hs. injection Hs as <-. repeat split. }
  destruct (X2_answer_feeds_next_step "Device X indications" s 0
              (mkTask agentA (buildCall agentA "Device X indications" fullState))
              "Summary A" "10:00:00" 0 agentA agentB)
    as (s1 & s2 & Hs1 & Hs2 & Hp & Hm & Hx);
    [rewrite Hp0; reflexivity | rewrite Hc0; reflexivity | reflexivity
    | rewrite Hc0; reflexivity | reflexivity | lia |].
  exists s, s1, s2. eexists.
  split; [reflexivity|]. split; [exact Hs1|]. split; [exact Hs2|].
  rewrite Hp, Hp0. split; [reflexivity|]. split; [reflexivity|].
  split; lia.
Defined.

(** X9: a failed run can be run again, on the same input and at the same
    price.  When a run that started is answered at once by a rejection or
    an empty response, the step has status error, its Run button is enabled,
    and its input resolves to what it was; a click then issues the same call
    again for 20 more if the pool still holds 20, and otherwise returns with
    the pool as it is and no call. *)
Theorem X9_retry_after_failure (gi : string) (index : nat) (s : State)
    (config : AgentConfig) (input : string) (r : Settled) (now : string) :
  agentConfigs s !! index = Some config ->
  determineInput gi index s = Some input ->
  blank input = false ->
  (20 <= mana s)%Z ->
  credit r = 0%Z ->
  exists s1 s2,
    executeAgent gi index s = Some s1 /\
    settle (length (pending s)) r now s1 = Some s2 /\
    status <$> results s2 !! id config = Some (Some Error) /\
    pending s2 = pending s /\ mana s2 = (mana s - 20)%Z /\
    determineInput gi index s2 = Some input /\
    ((40 <= mana s)%Z ->
       exists s3, runButton gi index s2 = Some s3 /\
                  pending s3 = pending s ++ [mkTask config (buildCall config input s)] /\
                  mana s3 = (mana s - 40)%Z) /\
    ((mana s < 40)%Z ->
       exists s3, runButton gi index s2 = Some s3 /\
                  pending s3 = pending s /\ mana s3 = (mana s - 20)%Z).
Proof.
  intros Hc Hi Hb Hm Hr.
  pose proof (executeAgent_started gi index s config input Hc Hi Hb Hm) as Hstart.
  set (s1 := mkState _ _ _ _ _ _ _) in Hstart.
  exists s1. unfold settle.
  assert (pending s1 !! length (pending s)
          = Some (mkTask config (buildCall config input s))) as ->
    by (unfold s1; simpl; apply list_lookup_middle; reflexivity).
  set (s2 := resume _ r now _). exists s2.
  assert (results s2 = <[id config := mkAgentResult (Some Error)
                           (outputOrEmpty (results s) (id config))
                           (Some (failureMessage r)) None]> (results s1)) as Hres2.
  { unfold s2. simpl task_config.
    assert (outputOrEmpty (results s1) (id config)
            = outputOrEmpty (results s) (id config)) as Hout.
    { unfold outputOrEmpty, s1. simpl. rewrite lookup_insert_eq. reflexivity. }
    destruct r as [response|msg]; simpl in Hr |- *.
    - destruct (truthy response); [discriminate Hr|]. simpl.
      unfold outputOrEmpty. simpl. rewrite lookup_insert_eq. reflexivity.
    - unfold outputOrEmpty. simpl. rewrite lookup_insert_eq. reflexivity. }
  assert (pending s2 = pending s) as Hp2.
  { unfold s2. rewrite resume_pending. unfold s1. simpl.
    rewrite <- (Nat.add_0_r (length (pending s))).
    change (pending s ++ [mkTask config (buildCall config input s)])
      with (pending s ++ mkTask config (buildCall config input s) :: []).
    rewrite Nat.add_0_r, delete_middle. apply app_nil_r. }
  assert (mana s2 = (mana s - 20)%Z) as Hm2
    by (unfold s2; rewrite resume_mana; unfold s1; simpl; lia).
  assert (agentConfigs s2 = agentConfigs s) as Hc2
    by (unfold s2; rewrite resume_configs; reflexivity).
  assert (apiKeys s2 = apiKeys s) as Hk2.
  { unfold s2. destruct r as [response|msg]; simpl; [|reflexivity].
    destruct (truthy response); reflexivity. }
  assert (determineInput gi index s2 = Some input) as Hi2.
  { destruct index as [|i]; [exact Hi|].
    simpl in Hi |- *. rewrite Hc2.
    destruct (agentConfigs s !! i) as [prevConfig|]; [|discriminate Hi].
    rewrite Hres2. unfold s1. simpl.
    destruct (decide (id config = id prevConfig)) as [Heq|Hne].
    - rewrite Heq, lookup_insert_eq. simpl. unfold outputOrEmpty.
      destruct (results s !! id prevConfig) as [prevResult|]; [|discriminate Hi].
      exact Hi.
    - rewrite !lookup_insert_ne by exact Hne. exact Hi. }
  assert (runButton gi index s2 = executeAgent gi index s2) as Hbutton.
  { unfold runButton, displayedResult. rewrite Hc2, Hc, Hres2, lookup_insert_eq. simpl.
    destruct (decide (Some Error = Some Running)) as [Habs|_]; [discriminate Habs|].
    reflexivity. }
  split; [exact Hstart|]. split; [reflexivity|].
  split; [rewrite Hres2, lookup_insert_eq; reflexivity|].
  split; [exact Hp2|]. split; [exact Hm2|]. split; [exact Hi2|]. split.
  - intros Hrich. rewrite Hbutton. eexists. split.
    + apply (executeAgent_started gi index s2 config input);
        [rewrite Hc2; exact Hc | exact Hi2 | exact Hb | lia].
    + simpl. unfold buildCall. rewrite Hp2, Hk2, Hm2. split; [reflexivity | lia].
  - intros Hpoor. rewrite Hbutton. unfold executeAgent. rewrite Hc2, Hc, Hi2.
    assert (truthy (trim input) = true) as ->.
    { destruct (truthy (trim input)) eqn:Ht; [reflexivity|].
      apply trim_blank in Ht. congruence. }
    simpl. assert ((mana s2 <? 20)%Z = true) as -> by (apply Z.ltb_lt; lia).
    eexists. split; [reflexivity|]. simpl. split; assumption.
Qed.

Lemma X9_retry_after_failure_witness :
  exists s1 s2 s3,
    executeAgent "Device X indications" 0 sampleState = Some s1 /\
    settle 0 (Rejected "quota exceeded") "10:00:00" s1 = Some s2 /\
    runButton "Device X indications" 0 s2 = Some s3 /\
    mana s3 = 20%Z /\ length (pending s3) = 1.
Proof.
  destruct (X9_retry_after_failure "Device X indications" 0 sampleState agentA
              "Device X indications" (Rejected "quota exceeded") "10:00:00")
    as (s1 & s2 & Hs1 & Hs2 & _ & _ & _ & _ & Hrich & _);
    [reflexivity | reflexivity | reflexivity | simpl; lia | reflexivity |].
  destruct Hrich as (s3 & Hs3 & Hp3 & Hm3); [simpl; lia|].
  exists s1, s2, s3. split; [exact Hs1|]. split; [exact Hs2|]. split; [exact Hs3|].
  split; [rewrite Hm3; reflexivity | rewrite Hp3; reflexivity].
Defined.

Lemma executeAgent_blank_pending (gi : string) (s s' : State) :
  blank gi = true -> executeAgent gi 0 s = Some s' -> pending s' = pending s.
Proof.
  intros Hb. unfold executeAgent.
  destruct (agentConfigs s !! 0) as [config|]; [|discriminate].
  simpl. apply trim_blank in Hb. rewrite Hb. simpl.
  intros H. injection H as <-. reflexivity.
Qed.

(** X10: the seed text is tested trimmed and sent untrimmed.  With at
    least 20 in the pool, a run of step 0 issues a call exactly when the
    seed text has a code unit that is no white space, and the prompt of that
    call ends with the seed text as typed, leading and trailing white space
    included. *)
Theorem X10_seed_tested_trimmed_sent_whole (gi : string) (s : State)
    (config : AgentConfig) :
  agentConfigs s !! 0 = Some config ->
  (20 <= mana s)%Z ->
  (blank gi = false <->
   exists s', executeAgent gi 0 s = Some s' /\
              pending s' = pending s ++
                [mkTask config
                   (mkCall (systemPrompt config +:+ LF +:+ LF +:+ "[TASK INPUT]:" +:+ LF +:+ gi)
                           (apiKeys s !! provider config)
                           (model config) (maxTokens config) (temperature config)
                           (provider config))]).
Proof.
  intros Hc Hm. split.
  - intros Hb. eexists. split; [apply executeAgent_started; eauto; reflexivity|].
    reflexivity.
  - intros (s' & He & Hp). destruct (blank gi) eqn:Hb; [|reflexivity].
    pose proof (executeAgent_blank_pending gi s s' Hb He) as Hp0. rewrite Hp in Hp0.
    apply (f_equal length) in Hp0. rewrite length_app in Hp0. simpl in Hp0. lia.
Qed.

Lemma X10_seed_tested_trimmed_sent_whole_witness :
  exists s', executeAgent "  Device X  " 0 sampleState = Some s' /\
             call_prompt <$> (task_call <$> pending s' !! 0) =
               Some ("Summarise." +:+ LF +:+ LF +:+ "[TASK INPUT]:" +:+ LF +:+ "  Device X  ").
Proof.
  destruct (X10_seed_tested_trimmed_sent_whole "  Device X  " sampleState agentA eq_refl)
    as [Hstarts _]; [simpl; lia|].
  destruct (Hstarts eq_refl) as (s' & He & Hp).
  exists s'. split; [exact He|]. rewrite Hp. reflexivity.
Defined.

(** ** More on the config list *)

Lemma updated_id (AI_MODELS : list AIModel.t) (c : AgentConfig) (fv : FieldValue) :
  isForId fv = false -> id (updated AI_MODELS c fv) = id c.
Proof. destruct fv; simpl; intros H; try discriminate H; reflexivity. Qed.

(** X11: the panel keeps the provider in step with the model.  When every
    config has the provider its model gives (the provider of the model's
    entry in [AI_MODELS], 'gemini' without one), it is still so after any
    update of one of the four fields the panel edits (model, maxTokens,
    temperature, systemPrompt), for any target id. *)
Theorem X11_provider_follows_model
    (AI_MODELS : list AIModel.t) (target : string) (fv : FieldValue) (s : State) :
  Forall (followsModel AI_MODELS) (agentConfigs s) ->
  panelField fv = true ->
  Forall (followsModel AI_MODELS)
         (agentConfigs (handleUpdateConfig AI_MODELS target fv s)).
Proof.
  intros Hall Hfield. simpl. apply Forall_fmap.
  eapply Forall_impl; [exact Hall|]. intros c Hc. simpl.
  destruct (negb (String.eqb (id c) target)); [exact Hc|].
  unfold followsModel in *.
  destruct fv; simpl in *; try discriminate Hfield; try exact Hc. reflexivity.
Qed.

Lemma X11_provider_follows_model_witness :
  Forall (followsModel sampleModels)
    (agentConfigs (handleUpdateConfig sampleModels "a" (For_model "gpt-4o-mini") sampleState)).
Proof.
  apply (X11_provider_follows_model sampleModels "a" (For_model "gpt-4o-mini") sampleState).
  - repeat constructor.
  - reflexivity.
Defined.

(** X12: the last write of a field wins.  Two updates of the same field
    (other than the id) of the same target id, one after the other, leave
    the state the second one alone leaves; for the model this includes the
    provider, which is the one of the second model. *)
Theorem X12_last_update_wins
    (AI_MODELS : list AIModel.t) (target : string) (fv1 fv2 : FieldValue) (s : State) :
  sameField fv1 fv2 = true ->
  isForId fv1 = false ->
  handleUpdateConfig AI_MODELS target fv2 (handleUpdateConfig AI_MODELS target fv1 s)
  = handleUpdateConfig AI_MODELS target fv2 s.
Proof.
  intros Hsame Hid. unfold handleUpdateConfig, setAgentConfigs. simpl. f_equal.
  rewrite <- list_fmap_compose. apply list_fmap_ext. intros _ c _. simpl.
  destruct (String.eqb (id c) target) eqn:Hc; simpl; [|rewrite Hc; reflexivity].
  rewrite (updated_id AI_MODELS c fv1 Hid), Hc. simpl.
  destruct c, fv1, fv2; simpl in *; try discriminate Hsame; try discriminate Hid;
    reflexivity.
Qed.

Lemma X12_last_update_wins_witness :
  agentConfigs
    (handleUpdateConfig sampleModels "a" (For_model "gemini-2.5-flash")
       (handleUpdateConfig sampleModels "a" (For_model "gpt-4o-mini") sampleState))
  = [agentA; agentB].
Proof.
  rewrite (X12_last_update_wins sampleModels "a" (For_model "gpt-4o-mini")
             (For_model "gemini-2.5-flash") sampleState eq_refl eq_refl).
  reflexivity.
Defined.

(** X13: an update of a field other than the id leaves the ids of the
    steps, in order, as they were; so every step shows the result it showed,
    every Run button is enabled or disabled as it was, and the input each
    step resolves is what it was. *)
Theorem X13_update_keeps_the_chain
    (AI_MODELS : list AIModel.t) (target : string) (fv : FieldValue) (s : State) :
  isForId fv = false ->
  let s' := handleUpdateConfig AI_MODELS target fv s in
  id <$> agentConfigs s' = id <$> agentConfigs s /\
  (forall i c, agentConfigs s !! i = Some c ->
     exists c', agentConfigs s' !! i = Some c' /\
                displayedResult s' c' = displayedResult s c) /\
  (forall gi i, determineInput gi i s' = determineInput gi i s).
Proof.
  intros Hid. cbv zeta.
  assert (forall i c, agentConfigs s !! i = Some c ->
            exists c', agentConfigs (handleUpdateConfig AI_MODELS target fv s) !! i = Some c'
                       /\ id c' = id c) as Hat.
  { intros i c Hc. simpl. rewrite list_lookup_fmap, Hc. simpl.
    eexists. split; [reflexivity|].
    destruct (negb (String.eqb (id c) target)); [reflexivity|].
    apply updated_id. exact Hid. }
  split; [|split].
  - simpl. rewrite <- list_fmap_compose. apply list_fmap_ext. intros _ c _. simpl.
    destruct (negb (String.eqb (id c) target)); [reflexivity|].
    apply updated_id. exact Hid.
  - intros i c Hc. destruct (Hat i c Hc) as (c' & Hc' & Hid').
    exists c'. split; [exact Hc'|]. unfold displayedResult. simpl results.
    rewrite Hid'. reflexivity.
  - intros gi [|i]; [reflexivity|]. unfold determineInput. simpl results.
    destruct (agentConfigs s !! i) as [c|] eqn:Hc.
    + destruct (Hat i c Hc) as (c' & -> & ->). reflexivity.
    + assert (agentConfigs (handleUpdateConfig AI_MODELS target fv s) !! i = None) as ->;
        [|reflexivity].
      simpl. rewrite list_lookup_fmap, Hc. reflexivity.
Qed.

Lemma X13_update_keeps_the_chain_witness :
  id <$> agentConfigs (handleUpdateConfig sampleModels "a" (For_systemPrompt "Shorter.")
                                          sampleState)
  = ["a"; "b"].
Proof.
  destruct (X13_update_keeps_the_chain sampleModels "a" (For_systemPrompt "Shorter.")
              sampleState eq_refl) as [Hids _].
  rewrite Hids. reflexivity.
Defined.

Lemma findModel_unique (AI_MODELS : list AIModel.t) (m : AIModel.t) :
  NoDup (AIModel.id <$> AI_MODELS) ->
  m ∈ AI_MODELS ->
  findModel AI_MODELS (AIModel.id m) = Some m.
Proof.
  intros Hnd Hin. apply list_elem_of_split in Hin as (before & after & ->).
  apply findModel_first; [|reflexivity].
  intros x Hx Heq. rewrite fmap_app in Hnd. apply NoDup_app in Hnd as (_ & Hsep & _).
  apply (Hsep (AIModel.id x)).
  - apply list_elem_of_fmap_2. exact Hx.
  - rewrite Heq. simpl. left.
Qed.

Lemma modelOptions_spec (AI_MODELS : list AIModel.t) (m : AIModel.t) :
  m ∈ modelOptions AI_MODELS <->
  m ∈ AI_MODELS /\ (AIModel.provider m = "gemini" \/ AIModel.provider m = "openai").
Proof.
  unfold modelOptions. rewrite elem_of_app, !list_elem_of_In, !filter_In.
  rewrite !String.eqb_eq. tauto.
Qed.

(** X14: the Model select offers exactly the entries of [AI_MODELS] whose
    provider is 'gemini' or 'openai' (entries of any other provider cannot
    be chosen); and when the ids of [AI_MODELS] are distinct, choosing an
    offered entry on the card of a step gives that step the id of the entry
    as model and the provider of the entry as provider. *)
Theorem X14_model_select
    (AI_MODELS : list AIModel.t) (s : State) (i : nat) (agent : AgentConfig)
    (m : AIModel.t) :
  (m ∈ modelOptions AI_MODELS <->
   m ∈ AI_MODELS /\ (AIModel.provider m = "gemini" \/ AIModel.provider m = "openai")) /\
  (NoDup (AIModel.id <$> AI_MODELS) ->
   m ∈ modelOptions AI_MODELS ->
   agentConfigs s !! i = Some agent ->
   exists c',
     agentConfigs (selectModel AI_MODELS agent m s) !! i = Some c' /\
     model c' = AIModel.id m /\
     provider c' = AIModel.provider m /\
     id c' = id agent /\ systemPrompt c' = systemPrompt agent).
Proof.
  split; [apply modelOptions_spec|].
  intros Hnd Hopt Hagent. apply modelOptions_spec in Hopt as [Hin Hprov].
  unfold selectModel. simpl. rewrite list_lookup_fmap, Hagent. simpl.
  rewrite String.eqb_refl. simpl. eexists. split; [reflexivity|]. simpl.
  rewrite (findModel_unique AI_MODELS m Hnd Hin). simpl.
  split; [reflexivity|]. split; [|split; reflexivity].
  destruct Hprov as [-> | ->]; reflexivity.
Qed.

Lemma X14_model_select_witness :
  exists c',
    agentConfigs (selectModel sampleModels agentA
                    (AIModel.mk "gpt-4o-mini" "GPT-4o mini" "openai") sampleState) !! 0
      = Some c' /\
    model c' = "gpt-4o-mini" /\ provider c' = "openai".
Proof.
  destruct (X14_model_select sampleModels sampleState 0 agentA
              (AIModel.mk "gpt-4o-mini" "GPT-4o mini" "openai")) as [_ Hselect].
  destruct Hselect as (c' & Hc' & Hm & Hp & _).
  - simpl. apply NoDup_cons. split; [|apply NoDup_singleton].
    intros Hin%list_elem_of_singleton. discriminate Hin.
  - apply modelOptions_spec. split; [right; left | right; reflexivity].
  - reflexivity.
  - exists c'. split; [exact Hc'|]. split; assumption.
Defined.

(** ** What survives the settings file *)

(** X16: a config comes back from the settings file as it was exactly
    when its two numbers are finite and not the negative zero.  Written by
    the export and read back by the import, a config with such numbers is
    itself; with a NaN or infinite [maxTokens] or [temperature] (written as
    [null]) the element read back is no config; in the remaining case, a
    negative zero, the config read back differs from the one written. *)
Theorem X16_config_survives_file (c : AgentConfig) :
  (asAgentConfig (stringifyConfig c) = Some c <-> representable c = true) /\
  (notFinite (maxTokens c) || notFinite (temperature c) = true ->
   asAgentConfig (stringifyConfig c) = None) /\
  (notFinite (maxTokens c) || notFinite (temperature c) = false ->
   exists c', asAgentConfig (stringifyConfig c) = Some c' /\
              id c' = id c /\ name c' = name c /\ description c' = description c /\
              provider c' = provider c /\ model c' = model c /\
              systemPrompt c' = systemPrompt c).
Proof.
  destruct c as [i n d p m mt t sp]. unfold representable, stringifyConfig. simpl.
  split; [|split].
  - split; [|intros H; apply (asAgentConfig_stringifyConfig
                                (mkAgentConfig i n d p m mt t sp) H)].
    destruct mt as [[|]| | |], t as [[|]| | |]; simpl; intros H;
      try discriminate H; try reflexivity; injection H; discriminate.
  - destruct mt as [[|]| | |], t as [[|]| | |]; simpl; intros H;
      try discriminate H; reflexivity.
  - destruct mt as [[|]| | |], t as [[|]| | |]; simpl; intros H;
      try discriminate H; eexists; (split; [reflexivity|]); simpl; repeat split.
Qed.

Lemma X16_config_survives_file_witness :
  asAgentConfig (stringifyConfig agentA) = Some agentA /\
  asAgentConfig
    (stringifyConfig (mkAgentConfig "a" "Intake" "d" "gemini" "m" S754_nan sampleTemperature "p"))
  = None.
Proof.
  split.
  - apply (proj1 (X16_config_survives_file agentA)). reflexivity.
  - apply (proj1 (proj2 (X16_config_survives_file
             (mkAgentConfig "a" "Intake" "d" "gemini" "m" S754_nan sampleTemperature "p")))).
    reflexivity.
Defined.

(** ** The preview of an output *)

Lemma append_cons (x : ascii) (a b : string) : String x a +:+ b = String x (a +:+ b).
Proof. reflexivity. Qed.

Lemma append_nil_l (b : string) : EmptyString +:+ b = b.
Proof. reflexivity. Qed.

Lemma append_nil_r (a : string) : a +:+ EmptyString = a.
Proof.
  induction a as [|x a IH]; [reflexivity|]. rewrite append_cons, IH. reflexivity.
Qed.

Lemma append_assoc (a b c : string) : (a +:+ b) +:+ c = a +:+ (b +:+ c).
Proof.
  induction a as [|x a IH]; [reflexivity|]. rewrite !append_cons, IH. reflexivity.
Qed.

Lemma allChars_append (p : ascii -> bool) (a b : string) :
  allChars p (a +:+ b) = allChars p a && allChars p b.
Proof.
  induction a as [|x a IH]; [reflexivity|].
  rewrite append_cons. simpl. rewrite IH. apply andb_assoc.
Qed.

Lemma allChars_impl (p q : ascii -> bool) (s : string) :
  (forall c, p c = true -> q c = true) -> allChars p s = true -> allChars q s = true.
Proof.
  intros Hpq. induction s as [|c rest IH]; simpl; [reflexivity|].
  intros [Hc Hrest]%andb_prop. rewrite (Hpq c Hc). auto.
Qed.

Lemma replaceLineFeeds_append (a b : string) :
  replaceLineFeeds (a +:+ b) = replaceLineFeeds a +:+ replaceLineFeeds b.
Proof.
  induction a as [|c a IH]; [reflexivity|].
  rewrite append_cons. simpl. destruct (isLineFeed c); rewrite IH.
  - rewrite append_assoc. reflexivity.
  - rewrite append_cons. reflexivity.
Qed.

Lemma replaceLineFeeds_none (s : string) :
  allChars (fun c => negb (isLineFeed c)) s = true -> replaceLineFeeds s = s.
Proof.
  induction s as [|c rest IH]; simpl; [reflexivity|].
  intros [Hc Hrest]%andb_prop. apply negb_true_iff in Hc. rewrite Hc, IH; auto.
Qed.

(** After the first replace no line feed is left, stars are neither added
    nor removed, and the only line terminators left are the carriage
    returns of the text. *)
Lemma replaceLineFeeds_keeps (p : ascii -> bool) (s : string) :
  allChars p "<br/>" = true ->
  allChars (fun c => isLineFeed c || p c) s = true ->
  allChars p (replaceLineFeeds s) = true.
Proof.
  intros Hbr. induction s as [|c rest IH]; simpl; [reflexivity|].
  intros [Hc Hrest]%andb_prop. destruct (isLineFeed c) eqn:Hlf.
  - change (allChars p ("<br/>" +:+ replaceLineFeeds rest) = true).
    rewrite allChars_append, Hbr. simpl. auto.
  - simpl in Hc. simpl. rewrite Hc. auto.
Qed.

Lemma afterStars_length (s after : string) :
  afterStars s = Some after -> String.length after < String.length s.
Proof.
  destruct s as [|c [|d rest]]; simpl; try discriminate.
  destruct (isStar c && isStar d); [|discriminate]. intros [= <-]. lia.
Qed.

Lemma lazyGroupThenStars_eq (s : string) :
  lazyGroupThenStars s =
    match afterStars s with
    | Some after => Some (EmptyString, after)
    | None =>
        match s with
        | EmptyString => None
        | String c rest =>
            if isLineTerminator c then None
            else match lazyGroupThenStars rest with
                 | Some (group, after) => Some (String c group, after)
                 | None => None
                 end
        end
    end.
Proof. destruct s; reflexivity. Qed.

Lemma lazyGroupThenStars_length (s group after : string) :
  lazyGroupThenStars s = Some (group, after) -> String.length after < String.length s.
Proof.
  revert group after. induction s as [|c rest IH]; intros group after;
    rewrite lazyGroupThenStars_eq.
  - discriminate.
  - destruct (afterStars (String c rest)) as [a|] eqn:Ha.
    + intros [= <- <-]. apply afterStars_length in Ha. exact Ha.
    + destruct (isLineTerminator c); [discriminate|].
      destruct (lazyGroupThenStars rest) as [[g a]|]; [|discriminate].
      intros [= <- <-]. specialize (IH g a eq_refl). simpl. lia.
Qed.

Lemma matchBold_length (s group after : string) :
  matchBold s = Some (group, after) -> String.length after < String.length s.
Proof.
  unfold matchBold. destruct (afterStars s) as [a|] eqn:Ha; [|discriminate].
  intros H. apply lazyGroupThenStars_length in H. apply afterStars_length in Ha. lia.
Qed.

(** Any fuel of at least the length of the text gives the same result. *)
Lemma replaceBoldFrom_enough (fuel1 fuel2 : nat) (s : string) :
  String.length s <= fuel1 -> String.length s <= fuel2 ->
  replaceBoldFrom fuel1 s = replaceBoldFrom fuel2 s.
Proof.
  revert fuel2 s. induction fuel1 as [|fuel1 IH]; intros fuel2 s H1 H2.
  - destruct s; [|simpl in H1; lia]. destruct fuel2; reflexivity.
  - destruct fuel2 as [|fuel2].
    + destruct s; [reflexivity | simpl in H2; lia].
    + destruct s as [|c rest]; [reflexivity|]. cbn [replaceBoldFrom].
      destruct (matchBold (String c rest)) as [[group after]|] eqn:Hm.
      * apply matchBold_length in Hm. rewrite (IH fuel2 after); [reflexivity | |];
          simpl in *; lia.
      * rewrite (IH fuel2 rest); [reflexivity | |]; simpl in *; lia.
Qed.

(** The equations of the global replace. *)
Lemma replaceBold_match (s group after : string) :
  matchBold s = Some (group, after) ->
  replaceBold s = "<b>" +:+ group +:+ "</b>" +:+ replaceBold after.
Proof.
  intros Hm. unfold replaceBold. destruct s as [|c rest]; [discriminate Hm|].
  cbn [String.length replaceBoldFrom]. rewrite Hm.
  apply matchBold_length in Hm.
  rewrite (replaceBoldFrom_enough (String.length rest) (String.length after) after);
    [reflexivity | simpl in Hm; lia | lia].
Qed.

Lemma replaceBold_copy (c : ascii) (rest : string) :
  matchBold (String c rest) = None ->
  replaceBold (String c rest) = String c (replaceBold rest).
Proof.
  intros Hm. unfold replaceBold. cbn [String.length replaceBoldFrom]. rewrite Hm.
  reflexivity.
Qed.

Lemma matchBold_not_star (c : ascii) (rest : string) :
  isStar c = false -> matchBold (String c rest) = None.
Proof.
  intros Hc. unfold matchBold. destruct rest; simpl; [reflexivity|].
  rewrite Hc. reflexivity.
Qed.

Lemma replaceBold_plain (a rest : string) :
  allChars (fun c => negb (isStar c)) a = true ->
  replaceBold (a +:+ rest) = a +:+ replaceBold rest.
Proof.
  induction a as [|c a IH]; [reflexivity|]. simpl.
  intros [Hc Ha]%andb_prop. apply negb_true_iff in Hc.
  rewrite !append_cons.
  rewrite replaceBold_copy by (apply matchBold_not_star; exact Hc).
  rewrite IH by exact Ha. reflexivity.
Qed.

Lemma replaceBold_nil : replaceBold EmptyString = EmptyString.
Proof. reflexivity. Qed.

(** X17: the preview escapes nothing.  A text with no line feed and no
    star is handed to [dangerouslySetInnerHTML] as it is, whatever other
    code units it holds (angle brackets, ampersands, quotes included). *)
Theorem X17_preview_escapes_nothing (outputText : string) :
  allChars (fun c => negb (isLineFeed c) && negb (isStar c)) outputText = true ->
  previewHtml outputText = outputText.
Proof.
  intros H. unfold previewHtml.
  rewrite replaceLineFeeds_none
    by (eapply allChars_impl; [|exact H]; intros c [Hc _]%andb_prop; exact Hc).
  rewrite <- (append_nil_r outputText) at 1.
  rewrite replaceBold_plain
    by (eapply allChars_impl; [|exact H]; intros c [_ Hc]%andb_prop; exact Hc).
  rewrite replaceBold_nil. apply append_nil_r.
Qed.

Lemma X17_preview_escapes_nothing_witness :
  previewHtml "<img src=x onerror=alert(1)>" = "<img src=x onerror=alert(1)>".
Proof. apply X17_preview_escapes_nothing. reflexivity. Defined.

Lemma afterStars_not_star (c : ascii) (rest : string) :
  isStar c = false -> afterStars (String c rest) = None.
Proof. intros Hc. destruct rest; simpl; [reflexivity|]. rewrite Hc. reflexivity. Qed.

Lemma lazyGroupThenStars_found (x b : string) :
  allChars (fun c => negb (isStar c) && negb (isLineTerminator c)) x = true ->
  lazyGroupThenStars (x +:+ "**" +:+ b) = Some (x, b).
Proof.
  induction x as [|c x IH]; [reflexivity|]. intros Hall. simpl in Hall.
  apply andb_prop in Hall as [[Hstar Hterm]%andb_prop Hx].
  apply negb_true_iff in Hstar, Hterm.
  rewrite (append_cons c x), lazyGroupThenStars_eq, (afterStars_not_star _ _ Hstar), Hterm.
  rewrite (IH Hx). reflexivity.
Qed.

Lemma lazyGroupThenStars_blocked (x b : string) :
  allChars (fun c => negb (isStar c)) x = true ->
  lazyGroupThenStars (x +:+ CR +:+ b) = None.
Proof.
  induction x as [|c x IH].
  { intros _. change (EmptyString +:+ CR +:+ b) with (String (ascii_of_nat 13) b).
    rewrite lazyGroupThenStars_eq, afterStars_not_star by reflexivity. reflexivity. }
  intros Hall. simpl in Hall.
  apply andb_prop in Hall as [Hstar Hx]. apply negb_true_iff in Hstar.
  rewrite (append_cons c x), lazyGroupThenStars_eq, (afterStars_not_star _ _ Hstar).
  destruct (isLineTerminator c); [reflexivity|]. rewrite (IH Hx). reflexivity.
Qed.

(** X18: a pair of double stars makes a bold span, line feeds inside
    included.  For a text made of a part with no star, two stars, a part
    with no star and no carriage return, two stars and a rest, the preview
    is the first part (its line feeds as [<br/>]), then the second part (its
    line feeds as [<br/>]) between [<b>] and [</b>], then the preview of the
    rest. *)
Theorem X18_preview_bold_span (a x b : string) :
  allChars (fun c => negb (isStar c)) a = true ->
  allChars (fun c => negb (isStar c) && negb (Nat.eqb (nat_of_ascii c) 13)) x = true ->
  previewHtml (a +:+ "**" +:+ x +:+ "**" +:+ b)
  = replaceLineFeeds a +:+ "<b>" +:+ replaceLineFeeds x +:+ "</b>" +:+ previewHtml b.
Proof.
  intros Ha Hx. unfold previewHtml.
  rewrite !replaceLineFeeds_append.
  change (replaceLineFeeds "**") with "**".
  rewrite replaceBold_plain.
  2:{ apply replaceLineFeeds_keeps; [reflexivity|].
      eapply allChars_impl; [|exact Ha]. intros c ->. apply orb_true_r. }
  f_equal.
  apply replaceBold_match. unfold matchBold.
  change (afterStars ("**" +:+ replaceLineFeeds x +:+ "**" +:+ replaceLineFeeds b))
    with (Some (replaceLineFeeds x +:+ "**" +:+ replaceLineFeeds b)).
  apply lazyGroupThenStars_found.
  apply replaceLineFeeds_keeps; [reflexivity|].
  eapply allChars_impl; [|exact Hx]. intros c [Hstar Hcr]%andb_prop.
  unfold isLineTerminator, isLineFeed. rewrite Hstar. simpl.
  destruct (Nat.eqb (nat_of_ascii c) 10); [reflexivity|]. simpl. exact Hcr.
Qed.

Lemma X18_preview_bold_span_witness :
  previewHtml ("Risk: **high" +:+ LF +:+ "class III** device")
  = "Risk: <b>high<br/>class III</b> device".
Proof.
  apply (X18_preview_bold_span "Risk: " ("high" +:+ LF +:+ "class III") " device");
    reflexivity.
Defined.

(** X19: a bold span never crosses a carriage return.  For a text made of
    a part with no star, two stars, a part with no star, a carriage return
    and a rest, the two stars stay as they are: the preview is the two parts
    (their line feeds as [<br/>]) around the two stars, the carriage return,
    and the preview of the rest. *)
Theorem X19_preview_bold_stops_at_CR (a x b : string) :
  allChars (fun c => negb (isStar c)) a = true ->
  allChars (fun c => negb (isStar c)) x = true ->
  previewHtml (a +:+ "**" +:+ x +:+ CR +:+ b)
  = replaceLineFeeds a +:+ "**" +:+ replaceLineFeeds x +:+ CR +:+ previewHtml b.
Proof.
  intros Ha Hx. unfold previewHtml.
  rewrite !replaceLineFeeds_append.
  change (replaceLineFeeds "**") with "**". change (replaceLineFeeds CR) with CR.
  assert (forall y, allChars (fun c => negb (isStar c)) y = true ->
            allChars (fun c => negb (isStar c)) (replaceLineFeeds y) = true) as Hkeep.
  { intros y Hy. apply replaceLineFeeds_keeps; [reflexivity|].
    eapply allChars_impl; [|exact Hy]. intros c ->. apply orb_true_r. }
  specialize (Hkeep x Hx) as Hx'. specialize (Hkeep a Ha) as Ha'.
  set (x' := replaceLineFeeds x) in *. set (b' := replaceLineFeeds b).
  rewrite replaceBold_plain by exact Ha'. f_equal.
  change ("**" +:+ x' +:+ CR +:+ b') with (String "*" (String "*" (x' +:+ CR +:+ b'))).
  rewrite replaceBold_copy.
  2:{ unfold matchBold.
      change (afterStars (String "*" (String "*" (x' +:+ CR +:+ b'))))
        with (Some (x' +:+ CR +:+ b')).
      apply lazyGroupThenStars_blocked. exact Hx'. }
  rewrite replaceBold_copy.
  2:{ unfold matchBold. destruct x' as [|d x'']; [reflexivity|].
      simpl in Hx'. apply andb_prop in Hx' as [Hd _]. apply negb_true_iff in Hd.
      rewrite (append_cons d x''). simpl. rewrite Hd. reflexivity. }
  rewrite replaceBold_plain by exact Hx'.
  change (CR +:+ b') with (String (ascii_of_nat 13) b').
  rewrite replaceBold_copy by (apply matchBold_not_star; reflexivity).
  reflexivity.
Qed.

Lemma X19_preview_bold_stops_at_CR_witness :
  previewHtml ("**high" +:+ CR +:+ "class III** device")
  = "**high" +:+ CR +:+ "class III** device".
Proof.
  apply (X19_preview_bold_stops_at_CR EmptyString "high" "class III** device");
    reflexivity.
Defined.

(** ** The theme of [App] *)

(** X20: the current theme is the first theme with the chosen id when
    there is one, and the first theme of the table otherwise; it is always a
    theme of the table, and it is undefined only when the table is empty. *)
Theorem X20_currentTheme_fallback
    (FLOWER_THEMES : list FlowerTheme.t) (currentFlowerId : string) :
  (forall before t after,
     FLOWER_THEMES = before ++ t :: after ->
     (forall x, x ∈ before -> FlowerTheme.id x <> currentFlowerId) ->
     FlowerTheme.id t = currentFlowerId ->
     currentTheme FLOWER_THEMES currentFlowerId = Some t) /\
  ((forall x, x ∈ FLOWER_THEMES -> FlowerTheme.id x <> currentFlowerId) ->
   currentTheme FLOWER_THEMES currentFlowerId = FLOWER_THEMES !! 0) /\
  (forall t, currentTheme FLOWER_THEMES currentFlowerId = Some t -> t ∈ FLOWER_THEMES) /\
  (currentTheme FLOWER_THEMES currentFlowerId = None <-> FLOWER_THEMES = []).
Proof.
  unfold currentTheme.
  set (chosen := fun t => String.eqb (FlowerTheme.id t) currentFlowerId).
  assert (forall l t, List.find chosen l = Some t -> t ∈ l) as Hfound.
  { intros l t H. apply find_some in H as [Hin _]. apply list_elem_of_In. exact Hin. }
  split; [|split; [|split]].
  - intros before t after -> Hbefore Ht.
    assert (List.find chosen (before ++ t :: after) = Some t) as ->; [|reflexivity].
    induction before as [|x rest IH]; simpl.
    + unfold chosen. apply String.eqb_eq in Ht. rewrite Ht. reflexivity.
    + assert (FlowerTheme.id x <> currentFlowerId) as Hx by (apply Hbefore; left).
      apply String.eqb_neq in Hx. unfold chosen at 1. rewrite Hx. apply IH.
      intros y Hy. apply Hbefore. right. exact Hy.
  - intros Hnone.
    assert (List.find chosen FLOWER_THEMES = None) as ->; [|reflexivity].
    induction FLOWER_THEMES as [|x rest IH]; simpl; [reflexivity|].
    assert (FlowerTheme.id x <> currentFlowerId) as Hx by (apply Hnone; left).
    apply String.eqb_neq in Hx. unfold chosen at 1. rewrite Hx. apply IH.
    intros y Hy. apply Hnone. right. exact Hy.
  - intros t. destruct (List.find chosen FLOWER_THEMES) as [t0|] eqn:Hf.
    + intros [= <-]. apply (Hfound _ _ Hf).
    + intros H. eapply list_elem_of_lookup_2. exact H.
  - destruct (List.find chosen FLOWER_THEMES) as [t0|] eqn:Hf.
    + split; [discriminate|]. intros ->. discriminate Hf.
    + destruct FLOWER_THEMES; simpl; split; try reflexivity; discriminate.
Qed.

Lemma X20_currentTheme_fallback_witness :
  currentTheme [rose; lotus] "lotus" = Some lotus /\
  currentTheme [rose; lotus] "tulip" = Some rose.
Proof.
  split.
  - apply (proj1 (X20_currentTheme_fallback [rose; lotus] "lotus") [rose] lotus []).
    + reflexivity.
    + intros x Hx%list_elem_of_singleton. subst x. discriminate.
    + reflexivity.
  - rewrite (proj1 (proj2 (X20_currentTheme_fallback [rose; lotus] "tulip"))).
    + reflexivity.
    + intros x Hx. apply list_elem_of_In in Hx. simpl in Hx.
      destruct Hx as [<- | [<- | []]]; discriminate.
Defined.

Lemma Root_eq (r1 r2 : Root) :
  classList r1 = classList r2 -> style r1 = style r2 -> r1 = r2.
Proof. destruct r1, r2. simpl. intros -> ->. reflexivity. Qed.

(** X21: the theme effect depends on the latest theme and mode only.
    After it runs, the root has the class [dark] exactly in dark mode, the
    background property is the dark background of the theme in dark mode and
    the light one otherwise, the three colour properties are those of the
    theme, and every other class and property is as before; running it
    after any earlier run gives the root that running it alone gives. *)
Theorem X21_applyTheme_last_wins
    (theme earlier : FlowerTheme.t) (themeMode earlierMode : ThemeMode) (root : Root) :
  let root' := applyTheme theme themeMode root in
  ("dark" ∈ classList root' <-> themeMode = DARK) /\
  (forall token, token <> "dark" -> (token ∈ classList root' <-> token ∈ classList root)) /\
  style root' !! "--bg-color" =
    Some (match themeMode with
          | DARK => FlowerTheme.darkBgColor theme
          | LIGHT => FlowerTheme.bgColor theme
          end) /\
  style root' !! "--primary" = Some (FlowerTheme.primaryColor theme) /\
  style root' !! "--secondary" = Some (FlowerTheme.secondaryColor theme) /\
  style root' !! "--accent" = Some (FlowerTheme.accentColor theme) /\
  (forall property,
     property ∉ ["--primary"; "--secondary"; "--accent"; "--bg-color"] ->
     style root' !! property = style root !! property) /\
  applyTheme theme themeMode (applyTheme earlier earlierMode root) = root'.
Proof.
  cbv zeta. unfold applyTheme, setProperty.
  split; [|split; [|split; [|split; [|split; [|split; [|split]]]]]].
  - destruct themeMode; cbn [classList]; split; intros H;
      try reflexivity; try discriminate H.
    + apply elem_of_difference in H as [_ H]. exfalso. apply H.
      apply elem_of_singleton. reflexivity.
    + apply elem_of_union. right. apply elem_of_singleton. reflexivity.
  - intros token Hne. destruct themeMode; cbn [classList].
    + rewrite elem_of_difference, elem_of_singleton. tauto.
    + rewrite elem_of_union, elem_of_singleton. tauto.
  - destruct themeMode; cbn [style]; apply lookup_insert_eq.
  - destruct themeMode; cbn [style]; rewrite !lookup_insert_ne by discriminate;
      apply lookup_insert_eq.
  - destruct themeMode; cbn [style]; rewrite !lookup_insert_ne by discriminate;
      apply lookup_insert_eq.
  - destruct themeMode; cbn [style]; rewrite !lookup_insert_ne by discriminate;
      apply lookup_insert_eq.
  - intros property Hnot.
    assert (property <> "--primary" /\ property <> "--secondary" /\
            property <> "--accent" /\ property <> "--bg-color") as (H1 & H2 & H3 & H4).
    { repeat split; intros ->; apply Hnot; repeat constructor. }
    destruct themeMode; cbn [style]; rewrite !lookup_insert_ne by congruence;
      reflexivity.
  - apply Root_eq.
    + destruct themeMode, earlierMode; cbn [classList];
        apply set_eq; intros token;
        rewrite ?elem_of_union, ?elem_of_difference, ?elem_of_union,
                ?elem_of_difference, ?elem_of_singleton;
        destruct (decide (token = "dark")); tauto.
    + destruct themeMode, earlierMode; cbn [style];
        apply map_eq; intros property; rewrite !lookup_insert;
        repeat case_decide; reflexivity.
Qed.

(** ** When the export can be imported again *)

Lemma asAgentConfig_stringifyConfig_inv (c : AgentConfig) :
  asAgentConfig (stringifyConfig c) = Some c -> representable c = true.
Proof.
  destruct c as [i n d p m mt t sp]. unfold representable, stringifyConfig. simpl.
  destruct mt as [[|]| | |], t as [[|]| | |]; simpl; intros H;
    try discriminate H; try reflexivity; injection H; discriminate.
Qed.

Lemma mapM_asAgentConfig_export_inv (configs : list AgentConfig) :
  mapM asAgentConfig (stringifyConfig <$> configs) = Some configs ->
  Forall (fun c => representable c = true) configs.
Proof.
  intros H. apply mapM_Some in H. apply Forall2_fmap_l in H.
  induction configs as [|c rest IH]; [constructor|].
  apply Forall2_cons in H as [Hc Hrest]. constructor; [|apply IH; exact Hrest].
  apply asAgentConfig_stringifyConfig_inv. exact Hc.
Qed.

Lemma acceptedSettings_export (first : AgentConfig) (others : list json) :
  acceptedSettings (JArray (stringifyConfig first :: others))
  = if truthy (id first) then Some (stringifyConfig first :: others) else None.
Proof. reflexivity. Qed.

(** X22: the export of a session is imported with success, and gives the
    importing session the exported config list, exactly when the exported
    list has a first step, the id of that step is not empty, and the numbers
    of every config are finite and not the negative zero.  In every other
    case the import logs no success with that list. *)
Theorem X22_own_export_imports_iff (exporting importing : State) :
  (exists s',
     handleUploadSettings (Some (Document (fst (handleDownloadSettings exporting))))
                          importing = Some s' /\
     logs s' = logs importing ++
       [mkLogEntry "Agent configurations loaded successfully." LogSuccess] /\
     agentConfigs s' = agentConfigs exporting)
  <->
  (exists first rest,
     agentConfigs exporting = first :: rest /\ id first <> EmptyString) /\
  Forall (fun c => representable c = true) (agentConfigs exporting).
Proof.
  unfold handleDownloadSettings. cbn [fst]. split.
  - intros (s' & Hup & Hlog & Hcfg).
    unfold handleUploadSettings in Hup.
    destruct (agentConfigs exporting) as [|first rest] eqn:Hlist.
    { change (acceptedSettings (JArray (stringifyConfig <$> []))) with (@None (list json))
        in Hup.
      injection Hup as <-. cbn [logs addLog] in Hlog.
      apply app_inv_head in Hlog. discriminate Hlog. }
    rewrite fmap_cons, acceptedSettings_export in Hup.
    destruct (truthy (id first)) eqn:Hid.
    2:{ injection Hup as <-. cbn [logs addLog] in Hlog. apply app_inv_head in Hlog.
        discriminate Hlog. }
    rewrite <- fmap_cons in Hup.
    destruct (mapM asAgentConfig (stringifyConfig <$> first :: rest)) as [configs|] eqn:Hread;
      [|discriminate Hup].
    injection Hup as <-. cbn [agentConfigs addLog setAgentConfigs] in Hcfg. subst configs.
    split.
    + exists first, rest. split; [reflexivity|]. intros Hempty.
      rewrite Hempty in Hid. discriminate Hid.
    + apply mapM_asAgentConfig_export_inv. exact Hread.
  - intros [(first & rest & Hlist & Hid) Hall].
    pose proof (mapM_asAgentConfig_export _ Hall) as Hread.
    rewrite Hlist in *. rewrite fmap_cons in *.
    unfold handleUploadSettings.
    rewrite (acceptedSettings_accepts (stringifyConfig first) (stringifyConfig <$> rest)
               (JString (id first))); [| reflexivity | apply truthy_nonempty; exact Hid].
    rewrite Hread. eexists. split; [reflexivity|]. split; reflexivity.
Qed.

Lemma X22_own_export_imports_iff_witness :
  exists s',
    handleUploadSettings (Some (Document (fst (handleDownloadSettings sampleState))))
                         emptyPipeline = Some s' /\
    agentConfigs s' = [agentA; agentB].
Proof.
  destruct (proj2 (X22_own_export_imports_iff sampleState emptyPipeline))
    as (s' & Hup & _ & Hcfg).
  - split; [exists agentA, [agentB]; split; [reflexivity | discriminate]|].
    repeat constructor.
  - exists s'. split; [exact Hup | exact Hcfg].
Defined.

(** ** Steps that overlap *)

(** X23: a step that is being run again still feeds the next step with
    its last output.  When step i has a stored non-empty output and a new
    run of it starts, the result of step i is running with that output kept,
    and a run of step i+1 resolves that earlier output as its input: it is
    not turned down for the step before being unfinished. *)
Theorem X23_next_step_takes_last_output (gi : string) (i : nat) (s : State)
    (prevConfig config : AgentConfig) (input : string) (old : AgentResult) :
  agentConfigs s !! i = Some prevConfig ->
  agentConfigs s !! S i = Some config ->
  determineInput gi i s = Some input ->
  blank input = false ->
  (20 <= mana s)%Z ->
  results s !! id prevConfig = Some old ->
  output old <> EmptyString ->
  exists s1,
    executeAgent gi i s = Some s1 /\
    results s1 !! id prevConfig =
      Some (mkAgentResult (Some Running) (output old) None None) /\
    determineInput gi (S i) s1 = Some (output old).
Proof.
  intros Hp Hc Hi Hb Hm Hold Hne.
  eexists. split; [apply executeAgent_started; eassumption|].
  assert (outputOrEmpty (results s) (id prevConfig) = output old) as Hout
    by (unfold outputOrEmpty; rewrite Hold; reflexivity).
  split.
  - simpl. rewrite lookup_insert_eq, Hout. reflexivity.
  - unfold determineInput. simpl. rewrite Hp, lookup_insert_eq, Hout. simpl.
    rewrite (truthy_nonempty _ Hne). reflexivity.
Qed.

Lemma X23_next_step_takes_last_output_witness :
  exists s s1,
    dispatchAll [] (take 2 failedRerun) sampleState = Some s /\
    executeAgent "Device X indications" 0 s = Some s1 /\
    status <$> results s1 !! "a" = Some (Some Running) /\
    determineInput "Device X indications" 1 s1 = Some "Summary A".
Proof.
  destruct (dispatchAll [] (take 2 failedRerun) sampleState) as [s|] eqn:Hs;
    [|vm_compute in Hs; discriminate Hs].
  assert (agentConfigs s = [agentA; agentB] /\ mana s = 40%Z /\
          results s !! "a" =
            Some (mkAgentResult (Some Completed) "Summary A" None (Some "10:00:00")))
    as (Hc & Hm & Hr).
  { vm_compute in Hs. injection Hs as <-. split; [reflexivity|]. split; [reflexivity|].
    vm_compute. reflexivity. }
  destruct (X23_next_step_takes_last_output "Device X indications" 0 s agentA agentB
              "Device X indications"
              (mkAgentResult (Some Completed) "Summary A" None (Some "10:00:00")))
    as (s1 & Hs1 & Hr1 & Hin);
    [rewrite Hc; reflexivity | rewrite Hc; reflexivity | reflexivity | reflexivity
    | lia | exact Hr | discriminate |].
  exists s, s1. split; [reflexivity|]. split; [exact Hs1|].
  split; [|exact Hin]. change (id agentA) with "a" in Hr1. rewrite Hr1. reflexivity.
Defined.

(** X24: an edit made while the step is running lasts only if the call
    fails.  For an output edited to a text while a call of its step is in
    flight: when the call settles with a non-empty response, the stored
    output is the response and the edit is gone; when it settles with a
    rejection or an empty response, the stored output is the edited text. *)
Theorem X24_edit_while_running (s : State) (k : nat) (t : Task)
    (newText : string) (r : Settled) (now : string) :
  pending s !! k = Some t ->
  exists s',
    settle k r now (handleSaveOutput (id (task_config t)) newText s) = Some s' /\
    output <$> results s' !! id (task_config t) =
      Some (match r with
            | Resolved response => if truthy response then response else newText
            | Rejected _ => newText
            end).
Proof.
  intros Hk. unfold settle. simpl pending. rewrite Hk.
  eexists. split; [reflexivity|].
  assert (outputOrEmpty
            (results (setPending (delete k) (handleSaveOutput (id (task_config t)) newText s)))
            (id (task_config t)) = newText) as Hout.
  { unfold outputOrEmpty. simpl. rewrite lookup_insert_eq.
    destruct (results s !! id (task_config t)); reflexivity. }
  destruct r as [response|msg].
  - unfold resume. destruct (truthy response); simpl negb; cbv iota.
    + simpl. rewrite lookup_insert_eq. reflexivity.
    + unfold catchError. cbn [results addLog setResults].
      rewrite lookup_insert_eq. simpl. f_equal. exact Hout.
  - unfold resume, catchError. cbn [results addLog setResults].
    rewrite lookup_insert_eq. simpl. f_equal. exact Hout.
Qed.

Lemma X24_edit_while_running_witness :
  exists s s',
    executeAgent "Device X indications" 0 sampleState = Some s /\
    settle 0 (Rejected "quota exceeded") "10:00:00"
           (handleSaveOutput "a" "Summary by hand" s) = Some s' /\
    output <$> results s' !! "a" = Some "Summary by hand".
Proof.
  destruct (executeAgent "Device X indications" 0 sampleState) as [s|] eqn:Hs;
    [|vm_compute in Hs; discriminate Hs].
  assert (pending s !! 0
          = Some (mkTask agentA (buildCall agentA "Device X indications" sampleState)))
    as Hk by (vm_compute in Hs; injection Hs as <-; reflexivity).
  destruct (X24_edit_while_running s 0 _ "Summary by hand" (Rejected "quota exceeded")
              "10:00:00" Hk) as (s' & Hs' & Hout).
  exists s, s'. split; [reflexivity|]. split; [exact Hs' | exact Hout].
Defined.

(** ** The Run button, the mount and the calls in flight *)

Lemma resumeDetached_frame (config : AgentConfig) (r : Settled) (s : State) :
  results (resumeDetached config r s) = results s /\
  pending (resumeDetached config r s) = pending s /\
  agentConfigs (resumeDetached config r s) = agentConfigs s.
Proof.
  destruct r as [response|msg]; simpl; [|repeat split].
  destruct (truthy response); simpl; repeat split.
Qed.

Lemma appDispatch_oneExecutionPerStep
    (DEFAULT_PIPELINE_CONFIG : list AgentConfig) (AI_MODELS : list AIModel.t)
    (e : AppEvent) (a a' : Tabbed) :
  oneExecutionPerStep (mounted a) ->
  appDispatch DEFAULT_PIPELINE_CONFIG AI_MODELS e a = Some a' ->
  oneExecutionPerStep (mounted a').
Proof.
  intros Ha H. destruct e as [e'| |k r]; simpl in H.
  - destruct (dispatch AI_MODELS e' (mounted a)) as [s'|] eqn:Hd; [|discriminate].
    injection H as <-. simpl. eapply dispatch_oneExecutionPerStep; eauto.
  - injection H as <-. unfold oneExecutionPerStep, pendingIds. simpl. split.
    + apply NoDup_nil_2.
    + intros key Hkey. apply elem_of_nil in Hkey. contradiction.
  - destruct (detached a !! k) as [t|]; [|discriminate]. injection H as <-. simpl.
    destruct (resumeDetached_frame (task_config t) r (mounted a)) as (Hr & Hp & _).
    destruct Ha as [Hnd Hrun]. unfold oneExecutionPerStep, pendingIds, isRunning in *.
    rewrite Hr, Hp. split; assumption.
Qed.

Lemma appDispatchAll_oneExecutionPerStep
    (DEFAULT_PIPELINE_CONFIG : list AgentConfig) (AI_MODELS : list AIModel.t)
    (es : list AppEvent) (a a' : Tabbed) :
  oneExecutionPerStep (mounted a) ->
  appDispatchAll DEFAULT_PIPELINE_CONFIG AI_MODELS es a = Some a' ->
  oneExecutionPerStep (mounted a').
Proof.
  revert a. induction es as [|e rest IH]; simpl; intros a Ha H.
  - injection H as <-. exact Ha.
  - destruct (appDispatch DEFAULT_PIPELINE_CONFIG AI_MODELS e a) as [a1|] eqn:He;
      [|discriminate].
    eapply IH; [|exact H]. eapply appDispatch_oneExecutionPerStep; eauto.
Qed.

(** C9, as stated, fails: step 0 is run and its result is running; the
    user leaves the pipeline tab and comes back, which mounts the component
    anew with no result; the Run button of step 0 is enabled, and a click
    takes 20 more from the pool and calls the provider a second time while
    the first call of the same step is still in flight. *)
Lemma C9_counterexample :
  exists a1 a,
    appDispatchAll [agentA; agentB] [] (take 1 runSwitchRun) sampleApp = Some a1 /\
    isRunning (mounted a1) "a" /\
    mana (mounted a1) = 40%Z /\
    appDispatchAll [agentA; agentB] [] runSwitchRun sampleApp = Some a /\
    mana (mounted a) = 20%Z /\
    (fun t => id (task_config t)) <$> detached a = ["a"] /\
    (fun t => id (task_config t)) <$> pending (mounted a) = ["a"] /\
    status <$> results (mounted a) !! "a" = Some (Some Running).
Proof.
  eexists _, _.
  split; [vm_compute; reflexivity|].
  split; [eexists; split; [vm_compute; reflexivity | reflexivity]|].
  split; [reflexivity|].
  split; [vm_compute; reflexivity|].
  split; [reflexivity|]. split; [reflexivity|]. split; [reflexivity|].
  vm_compute. reflexivity.
Qed.

(** C9, amended: while the component stays mounted, a click on the Run
    button of a step whose result has status running changes nothing (the
    button is disabled and [executeAgent] is not called: no debit, no write,
    no provider call); and in every state the events of the app lead to from
    a state with no suspended call of the mounted component, tab switches
    included, no step has two suspended executions started since the
    component was last mounted, and every step that has one is running.  The
    guard is the button's: [executeAgent] has no test of its own. *)
Theorem C9_button_guard_within_mount
    (DEFAULT_PIPELINE_CONFIG : list AgentConfig) (AI_MODELS : list AIModel.t)
    (es : list AppEvent) (a0 a : Tabbed) :
  pending (mounted a0) = [] ->
  appDispatchAll DEFAULT_PIPELINE_CONFIG AI_MODELS es a0 = Some a ->
  (forall gi index agent,
     agentConfigs (mounted a) !! index = Some agent ->
     isRunning (mounted a) (id agent) ->
     appDispatch DEFAULT_PIPELINE_CONFIG AI_MODELS (OnPipeline (ClickRun index gi)) a
       = Some a) /\
  oneExecutionPerStep (mounted a).
Proof.
  intros Hp Hrun. split.
  - intros gi index agent Hagent Hrunning. simpl.
    rewrite (runButton_disabled gi index (mounted a) agent Hagent Hrunning).
    destruct a. reflexivity.
  - eapply appDispatchAll_oneExecutionPerStep; [|exact Hrun].
    unfold oneExecutionPerStep, pendingIds. rewrite Hp. simpl. split.
    + apply NoDup_nil_2.
    + intros key Hkey. apply elem_of_nil in Hkey. contradiction.
Qed.

Lemma C9_button_guard_within_mount_witness :
  exists a,
    appDispatchAll [agentA; agentB] [] runSwitchRun sampleApp = Some a /\
    appDispatch [agentA; agentB] [] (OnPipeline (ClickRun 0 "Device X indications")) a
      = Some a /\
    pendingIds (mounted a) = ["a"].
Proof.
  destruct (appDispatchAll [agentA; agentB] [] runSwitchRun sampleApp) as [a|] eqn:Hrun;
    [|vm_compute in Hrun; discriminate Hrun].
  destruct (C9_button_guard_within_mount [agentA; agentB] [] runSwitchRun sampleApp a)
    as [Hbutton _]; [reflexivity | exact Hrun |].
  assert (agentConfigs (mounted a) !! 0 = Some agentA /\ isRunning (mounted a) "a" /\
          pendingIds (mounted a) = ["a"]) as (Hc & Hr & Hp).
  { vm_compute in Hrun. injection Hrun as <-.
    split; [reflexivity|]. split; [|reflexivity].
    eexists. split; [vm_compute; reflexivity | reflexivity]. }
  exists a. split; [reflexivity|]. split; [|exact Hp].
  apply (Hbutton "Device X indications" 0 agentA Hc Hr).
Defined.

(** ** The import, on whatever the file holds *)

Lemma asAgentConfig_valueOfConfig (c : AgentConfig) :
  asAgentConfig (valueOfConfig c) = Some c.
Proof. destruct c. reflexivity. Qed.

(** The typed handler is [onloadSettings] read through the type: whenever
    it has a next state, the cell of that state is the stored array read as
    configs, the line logged is the same, and nothing else has changed. *)
Lemma handleUploadSettings_onloadSettings (file : FileText) (s s' : State) :
  handleUploadSettings (Some file) s = Some s' ->
  mapM asAgentConfig (fst (onloadSettings file (valueOfConfig <$> agentConfigs s)))
    = Some (agentConfigs s') /\
  logs s' = logs s ++ [snd (onloadSettings file (valueOfConfig <$> agentConfigs s))] /\
  results s' = results s /\ mana s' = mana s /\ experience s' = experience s /\
  pending s' = pending s.
Proof.
  assert (mapM asAgentConfig (valueOfConfig <$> agentConfigs s) = Some (agentConfigs s))
    as Hsame by (apply mapM_fmap_Some; apply asAgentConfig_valueOfConfig).
  unfold handleUploadSettings, onloadSettings. intros H.
  destruct file as [|parsed].
  - injection H as <-. simpl. repeat split. exact Hsame.
  - destruct (acceptedSettings parsed) as [items|].
    + destruct (mapM asAgentConfig items) as [configs|] eqn:Hread; [|discriminate H].
      injection H as <-. simpl. repeat split. exact Hread.
    + injection H as <-. simpl. repeat split. exact Hsame.
Qed.

(** C5, as stated, fails: a document that parses, is a sequence of one
    element, and whose element has an [id] property (the empty string) and
    all other fields is none of the four kinds the claim lists, yet the
    import turns it down and the pipeline stays as it was. *)
Lemma C5_counterexample :
  exists first v s',
    first = stringifyConfig agentNoId /\
    idField first = Some v /\
    asAgentConfig first = Some agentNoId /\
    handleUploadSettings (Some (Document (JArray [first]))) sampleState = Some s' /\
    logs s' = [mkLogEntry "Failed to parse settings file." LogError] /\
    agentConfigs s' = [agentA; agentB] /\
    onloadSettings (Document (JArray [first])) (valueOfConfig <$> [agentA; agentB])
      = (valueOfConfig <$> [agentA; agentB],
         mkLogEntry "Failed to parse settings file." LogError).
Proof.
  eexists _, _, _. split; [reflexivity|]. split; [reflexivity|].
  split; [reflexivity|]. split; [reflexivity|]. split; [reflexivity|].
  split; reflexivity.
Qed.

(** C5, amended: a file that does not parse, is no sequence, is the empty
    sequence, or whose first element has no [id] property or a falsy one
    (empty string, zero, false, null) is turned down with the one error line
    "Failed to parse settings file." and the config cell stays as it was;
    every other file is a non-empty sequence whose first element has a
    truthy [id], and importing it makes the parsed sequence the content of
    the cell, whatever its elements are and whatever the cell held, with the
    line "Agent configurations loaded successfully.". *)
Theorem C5_import_validation :
  (forall file cell,
     refused file ->
     onloadSettings file cell
       = (cell, mkLogEntry "Failed to parse settings file." LogError)) /\
  (forall first rest v cell,
     idField first = Some v -> truthyJson v = true ->
     onloadSettings (Document (JArray (first :: rest))) cell
       = (first :: rest,
          mkLogEntry "Agent configurations loaded successfully." LogSuccess)) /\
  (forall file,
     refused file \/
     exists first rest v,
       file = Document (JArray (first :: rest)) /\
       idField first = Some v /\ truthyJson v = true) /\
  (forall file s s',
     handleUploadSettings (Some file) s = Some s' ->
     mapM asAgentConfig (fst (onloadSettings file (valueOfConfig <$> agentConfigs s)))
       = Some (agentConfigs s') /\
     logs s' = logs s ++ [snd (onloadSettings file (valueOfConfig <$> agentConfigs s))] /\
     results s' = results s /\ mana s' = mana s).
Proof.
  split; [|split; [|split]].
  - intros file cell Hr. destruct file as [|parsed]; [reflexivity|].
    unfold onloadSettings. rewrite (acceptedSettings_refused parsed Hr). reflexivity.
  - intros first rest v cell Hid Hv. unfold onloadSettings.
    rewrite (acceptedSettings_accepts first rest v Hid Hv). reflexivity.
  - apply refused_or_accepted.
  - intros file s s' H.
    destruct (handleUploadSettings_onloadSettings file s s' H) as (H1 & H2 & H3 & H4 & _).
    repeat split; assumption.
Qed.

Lemma C5_import_validation_witness :
  onloadSettings (Document (JArray [])) (valueOfConfig <$> [agentA; agentB])
    = (valueOfConfig <$> [agentA; agentB],
       mkLogEntry "Failed to parse settings file." LogError) /\
  onloadSettings (Document (JArray [JObject [("id", JString "x")]]))
                 (valueOfConfig <$> [agentA; agentB])
    = ([JObject [("id", JString "x")]],
       mkLogEntry "Agent configurations loaded successfully." LogSuccess).
Proof.
  destruct C5_import_validation as (Hrefused & Haccepted & _). split.
  - apply Hrefused. apply refused_empty.
  - apply (Haccepted _ _ (JString "x")); reflexivity.
Defined.

(** ** Export then import, on the lists the component holds *)

Lemma getString_id (props : list (string * json)) (i : string) :
  getString "id" props = Some i -> idField (JObject props) = Some (JString i).
Proof.
  unfold getString. simpl. destruct (getProp "id" props) as [[| | |s| |]|];
    try discriminate. intros [= ->]. reflexivity.
Qed.

Lemma asAgentConfig_id (v : json) (c : AgentConfig) :
  asAgentConfig v = Some c -> idField v = Some (JString (id c)).
Proof.
  destruct v as [| | | | |props]; try discriminate. unfold asAgentConfig.
  destruct (getString "id" props) as [i|] eqn:Hi; [|discriminate]. simpl.
  destruct (getString "name" props); [|discriminate]. simpl.
  destruct (getString "description" props); [|discriminate]. simpl.
  destruct (getString "provider" props); [|discriminate]. simpl.
  destruct (getString "model" props); [|discriminate]. simpl.
  destruct (getNumber "maxTokens" props); [|discriminate]. simpl.
  destruct (getNumber "temperature" props); [|discriminate]. simpl.
  destruct (getString "systemPrompt" props); [|discriminate]. simpl.
  intros [= <-]. simpl. apply getString_id. exact Hi.
Qed.

Lemma accepted_configs_hasFirstId (parsed : json) (items : list json)
    (configs : list AgentConfig) :
  acceptedSettings parsed = Some items ->
  mapM asAgentConfig items = Some configs ->
  hasFirstId configs.
Proof.
  intros Hacc Hread.
  destruct (refused_or_accepted (Document parsed))
    as [Hr | (first & rest & v & Heq & Hid & Hv)].
  { rewrite (acceptedSettings_refused parsed Hr) in Hacc. discriminate Hacc. }
  injection Heq as ->.
  rewrite (acceptedSettings_accepts first rest v Hid Hv) in Hacc. injection Hacc as <-.
  apply mapM_Some in Hread. apply Forall2_cons_inv_l in Hread
    as (c & cs & Hc & _ & ->).
  exists c, cs. split; [reflexivity|].
  apply asAgentConfig_id in Hc. rewrite Hid in Hc. injection Hc as ->.
  intros Hempty. rewrite Hempty in Hv. discriminate Hv.
Qed.

Lemma dispatch_hasFirstId (AI_MODELS : list AIModel.t) (e : Event) (s s' : State) :
  hasFirstId (agentConfigs s) ->
  fromInterface e = true ->
  dispatch AI_MODELS e s = Some s' ->
  hasFirstId (agentConfigs s').
Proof.
  intros Hs Hui H. by_event e H.
  - unfold runButton in H.
    destruct (agentConfigs s !! index) as [agent|]; [|discriminate].
    destruct (decide _); [injection H as <-; exact Hs|].
    rewrite (executeAgent_configs _ _ _ _ H). exact Hs.
  - unfold settle in H. destruct (pending s !! k) as [t|]; [|discriminate].
    injection H as <-. rewrite resume_configs. exact Hs.
  - injection H as <-. destruct Hs as (first & rest & Hlist & Hid).
    simpl. rewrite Hlist, fmap_cons. eexists _, _. split; [reflexivity|].
    simpl in Hui.
    assert (isForId fv = false) as Hfv by (destruct fv; try discriminate Hui; reflexivity).
    destruct (negb (String.eqb (id first) target)); [exact Hid|].
    rewrite (updated_id AI_MODELS first fv Hfv). exact Hid.
  - injection H as <-. exact Hs.
  - injection H as <-. exact Hs.
  - unfold handleUploadSettings in H.
    destruct file as [[|parsed]|]; try (injection H as <-; exact Hs).
    destruct (acceptedSettings parsed) as [items|] eqn:Hacc;
      [|injection H as <-; exact Hs].
    destruct (mapM asAgentConfig items) as [configs|] eqn:Hread; [|discriminate H].
    injection H as <-. simpl. eapply accepted_configs_hasFirstId; eauto.
  - injection H as <-. exact Hs.
Qed.

Lemma dispatchAll_hasFirstId (AI_MODELS : list AIModel.t) (es : list Event) (s s' : State) :
  hasFirstId (agentConfigs s) ->
  forallb fromInterface es = true ->
  dispatchAll AI_MODELS es s = Some s' ->
  hasFirstId (agentConfigs s').
Proof.
  revert s. induction es as [|e rest IH]; simpl; intros s Hs Hui H.
  - injection H as <-. exact Hs.
  - apply andb_prop in Hui as [He Hrest].
    destruct (dispatch AI_MODELS e s) as [s1|] eqn:Hd; [|discriminate].
    apply (IH s1); [|exact Hrest | exact H]. eapply dispatch_hasFirstId; eauto.
Qed.

Lemma strictEquals_written (n m : number) :
  notFinite n = false -> stringifyNumber n = JNumber m -> strictEquals m n = true.
Proof.
  destruct n as [sign|sign| |sign p e]; simpl; intros Hn H; try discriminate;
    injection H as <-; simpl; [reflexivity|].
  rewrite Bool.eqb_reflx, Pos.eqb_refl, Z.eqb_refl. reflexivity.
Qed.

Lemma stringifyNumber_finite (n : number) :
  notFinite n = false -> exists m, stringifyNumber n = JNumber m.
Proof. destruct n; simpl; intros H; try discriminate H; eexists; reflexivity. Qed.

Lemma asAgentConfig_stringifyConfig_same (c : AgentConfig) :
  finiteNumbers c = true ->
  exists c', asAgentConfig (stringifyConfig c) = Some c' /\ sameConfig c' c.
Proof.
  destruct c as [i n d p m mt t sp]. unfold finiteNumbers, stringifyConfig. simpl.
  intros [Hmt Ht]%andb_prop. apply negb_true_iff in Hmt, Ht.
  destruct (stringifyNumber_finite mt Hmt) as [mt' Hmt'].
  destruct (stringifyNumber_finite t Ht) as [t' Ht'].
  rewrite Hmt', Ht'. eexists. split; [reflexivity|].
  unfold sameConfig. simpl. repeat split; try reflexivity.
  - apply strictEquals_written; assumption.
  - apply strictEquals_written; assumption.
Qed.

Lemma mapM_asAgentConfig_export_same (configs : list AgentConfig) :
  Forall (fun c => finiteNumbers c = true) configs ->
  exists read,
    mapM asAgentConfig (stringifyConfig <$> configs) = Some read /\
    Forall2 sameConfig read configs.
Proof.
  induction 1 as [|c rest Hc _ (read & Hread & Hsame)].
  - exists []. split; [reflexivity | constructor].
  - destruct (asAgentConfig_stringifyConfig_same c Hc) as (c' & Hc' & Hcc).
    exists (c' :: read). split; [|constructor; assumption].
    apply mapM_Some. rewrite fmap_cons. constructor; [exact Hc'|].
    apply mapM_Some. exact Hread.
Qed.

Lemma appDispatch_hasFirstId
    (DEFAULT_PIPELINE_CONFIG : list AgentConfig) (AI_MODELS : list AIModel.t)
    (e : AppEvent) (a a' : Tabbed) :
  hasFirstId DEFAULT_PIPELINE_CONFIG ->
  hasFirstId (agentConfigs (mounted a)) ->
  appFromInterface e = true ->
  appDispatch DEFAULT_PIPELINE_CONFIG AI_MODELS e a = Some a' ->
  hasFirstId (agentConfigs (mounted a')).
Proof.
  intros Hdefault Ha Hui H. destruct e as [e'| |k r]; simpl in H.
  - destruct (dispatch AI_MODELS e' (mounted a)) as [s'|] eqn:Hd; [|discriminate].
    injection H as <-. simpl. eapply dispatch_hasFirstId; eauto.
  - injection H as <-. exact Hdefault.
  - destruct (detached a !! k) as [t|]; [|discriminate]. injection H as <-. simpl.
    destruct r as [response|msg]; simpl; [destruct (truthy response)|]; exact Ha.
Qed.

Lemma appDispatchAll_hasFirstId
    (DEFAULT_PIPELINE_CONFIG : list AgentConfig) (AI_MODELS : list AIModel.t)
    (es : list AppEvent) (a a' : Tabbed) :
  hasFirstId DEFAULT_PIPELINE_CONFIG ->
  hasFirstId (agentConfigs (mounted a)) ->
  forallb appFromInterface es = true ->
  appDispatchAll DEFAULT_PIPELINE_CONFIG AI_MODELS es a = Some a' ->
  hasFirstId (agentConfigs (mounted a')).
Proof.
  intros Hdefault. revert a. induction es as [|e rest IH]; simpl; intros a Ha Hui H.
  - injection H as <-. exact Ha.
  - apply andb_prop in Hui as [He Hrest].
    destruct (appDispatch DEFAULT_PIPELINE_CONFIG AI_MODELS e a) as [a1|] eqn:Hd;
      [|discriminate].
    apply (IH a1); [|exact Hrest | exact H].
    exact (appDispatch_hasFirstId _ _ _ _ _ Hdefault Ha He Hd).
Qed.

(** C4: the export of any pipeline the component holds, its numbers
    finite, is imported as that pipeline.  For every pipeline the events of
    the interface lead to from the first render (runs, answers, edits,
    imports, exports and tab switches), with a default config list that has a
    first step with a non-empty id, and for every importing session: when the
    numbers of the configs are finite, importing the exported document
    succeeds and gives the importing session a config list of the same length
    and order whose configs are field for field [===] to the exported ones;
    and the list is the exported list itself when no number is the negative
    zero. *)
Theorem C4_export_import_roundtrip
    (AI_MODELS : list AIModel.t) (DEFAULT_PIPELINE_CONFIG : list AgentConfig)
    (es : list AppEvent) (a : Tabbed) (importing : State) :
  hasFirstId DEFAULT_PIPELINE_CONFIG ->
  forallb appFromInterface es = true ->
  appDispatchAll DEFAULT_PIPELINE_CONFIG AI_MODELS es
                 (mkTabbed (initialState DEFAULT_PIPELINE_CONFIG) []) = Some a ->
  Forall (fun c => finiteNumbers c = true) (agentConfigs (mounted a)) ->
  exists s',
    handleUploadSettings (Some (Document (fst (handleDownloadSettings (mounted a)))))
                         importing = Some s' /\
    logs s' = logs importing ++
      [mkLogEntry "Agent configurations loaded successfully." LogSuccess] /\
    Forall2 sameConfig (agentConfigs s') (agentConfigs (mounted a)) /\
    (Forall (fun c => representable c = true) (agentConfigs (mounted a)) ->
     agentConfigs s' = agentConfigs (mounted a)).
Proof.
  intros Hdefault Hui Hrun Hfinite.
  destruct (appDispatchAll_hasFirstId DEFAULT_PIPELINE_CONFIG AI_MODELS es
              (mkTabbed (initialState DEFAULT_PIPELINE_CONFIG) []) a
              Hdefault Hdefault Hui Hrun) as (first & rest & Hlist & Hid).
  destruct (mapM_asAgentConfig_export_same _ Hfinite) as (read & Hread & Hsame).
  unfold handleDownloadSettings. cbn [fst]. unfold handleUploadSettings.
  rewrite Hlist in *. rewrite fmap_cons in *.
  rewrite (acceptedSettings_accepts (stringifyConfig first) (stringifyConfig <$> rest)
             (JString (id first))); [| reflexivity | apply truthy_nonempty; exact Hid].
  rewrite Hread. eexists. split; [reflexivity|]. split; [reflexivity|].
  split; [exact Hsame|].
  intros Hrep. pose proof (mapM_asAgentConfig_export (first :: rest) Hrep) as Hexact.
  rewrite fmap_cons in Hexact. rewrite Hexact in Hread. injection Hread as <-.
  reflexivity.
Qed.

Lemma C4_export_import_roundtrip_witness :
  exists a s',
    appDispatchAll [agentA; agentB] sampleModels
                   [OnPipeline (UpdateConfig "a" (For_model "gpt-4o-mini"))]
                   (mkTabbed (initialState [agentA; agentB]) []) = Some a /\
    handleUploadSettings (Some (Document (fst (handleDownloadSettings (mounted a)))))
                         emptyPipeline = Some s' /\
    agentConfigs s' = agentConfigs (mounted a).
Proof.
  destruct (appDispatchAll [agentA; agentB] sampleModels
              [OnPipeline (UpdateConfig "a" (For_model "gpt-4o-mini"))]
              (mkTabbed (initialState [agentA; agentB]) [])) as [a|] eqn:Hrun;
    [|discriminate Hrun].
  assert (Forall (fun c => representable c = true) (agentConfigs (mounted a))) as Hrep.
  { injection Hrun as <-. repeat constructor. }
  destruct (C4_export_import_roundtrip sampleModels [agentA; agentB]
              [OnPipeline (UpdateConfig "a" (For_model "gpt-4o-mini"))] a emptyPipeline)
    as (s' & Hup & _ & _ & Hexact).
  - exists agentA, [agentB]. split; [reflexivity | discriminate].
  - reflexivity.
  - exact Hrun.
  - injection Hrun as <-. repeat constructor.
  - exists a, s'. split; [reflexivity|]. split; [exact Hup|].
    apply Hexact. exact Hrep.
Defined.

(** ** An edited output and the next step *)

(** X8: an edited output is the input of the next step.  After
    [handleSaveOutput] on the output of step i with a non-empty text, a run
    of step i+1 takes that text as its input; with the empty text, a run of
    step i+1 returns after the line "Cannot run <name>. Previous agent has no
    output." with the pool and the calls in flight as before.  When step i
    had a result with a status (the only case in which its editor is
    rendered), its output area is rendered after the edit exactly when the
    text is not empty, so clearing the text removes the editor; when step i
    had no result, the record created has no status and the card of step i
    throws when it is rendered. *)
Theorem X8_edited_output_feeds_next_step (gi : string) (i : nat) (s : State)
    (config prevConfig : AgentConfig) (newText : string) :
  agentConfigs s !! S i = Some config ->
  agentConfigs s !! i = Some prevConfig ->
  let s' := handleSaveOutput (id prevConfig) newText s in
  (newText <> EmptyString -> determineInput gi (S i) s' = Some newText) /\
  (newText = EmptyString ->
     exists s'',
       executeAgent gi (S i) s' = Some s'' /\
       logs s'' = logs s ++
         [mkLogEntry ("Cannot run " +:+ name config +:+ ". Previous agent has no output.")
                     LogError] /\
       mana s'' = mana s /\ pending s'' = pending s) /\
  (forall old st,
     results s !! id prevConfig = Some old -> status old = Some st ->
     outputShown s' prevConfig = Some (truthy newText)) /\
  (results s !! id prevConfig = None -> outputShown s' prevConfig = None).
Proof.
  intros Hc Hp. cbv zeta.
  assert (results (handleSaveOutput (id prevConfig) newText s) !! id prevConfig
          = Some (withOutput (results s !! id prevConfig) newText)) as Hr
    by apply lookup_insert_eq.
  assert (output (withOutput (results s !! id prevConfig) newText) = newText) as Ho
    by (destruct (results s !! id prevConfig); reflexivity).
  split; [|split; [|split]].
  - intros Hne. pose proof (truthy_nonempty _ Hne) as Htr.
    unfold determineInput. simpl agentConfigs. rewrite Hp, Hr, Ho, Htr. reflexivity.
  - intros ->. unfold executeAgent. simpl agentConfigs. rewrite Hc.
    assert (determineInput gi (S i) (handleSaveOutput (id prevConfig) EmptyString s)
            = None) as ->.
    { unfold determineInput. simpl agentConfigs. rewrite Hp, Hr, Ho. reflexivity. }
    eexists. split; [reflexivity|]. simpl. repeat split.
  - intros old st Hold Hst. unfold outputShown, displayedResult. rewrite Hr, Ho.
    rewrite Hold. simpl. rewrite Hst. reflexivity.
  - intros Hnone. unfold outputShown, displayedResult. rewrite Hr, Hnone. reflexivity.
Qed.

Lemma X8_edited_output_feeds_next_step_witness :
  exists s,
    dispatchAll [] (take 2 failedRerun) sampleState = Some s /\
    determineInput "seed" 1 (handleSaveOutput "a" "Summary by hand" s)
      = Some "Summary by hand" /\
    outputShown (handleSaveOutput "a" "Summary by hand" s) agentA = Some true.
Proof.
  destruct (dispatchAll [] (take 2 failedRerun) sampleState) as [s|] eqn:Hs;
    [|vm_compute in Hs; discriminate Hs].
  assert (agentConfigs s = [agentA; agentB] /\
          results s !! "a" =
            Some (mkAgentResult (Some Completed) "Summary A" None (Some "10:00:00")))
    as (Hc & Hr).
  { vm_compute in Hs. injection Hs as <-. split; [reflexivity|]. vm_compute. reflexivity. }
  destruct (X8_edited_output_feeds_next_step "seed" 0 s agentB agentA "Summary by hand")
    as (Hfeeds & _ & Hshown & _);
    [rewrite Hc; reflexivity | rewrite Hc; reflexivity |].
  exists s. split; [reflexivity|]. split; [apply Hfeeds; discriminate|].
  apply (Hshown _ Completed Hr). reflexivity.
Defined.

(** ** [updateStats] on its own *)

(** X15: on integers in the range where the arithmetic of JavaScript
    numbers is exact (arguments, counters and results all of size at most
    [Number.MAX_SAFE_INTEGER]), [updateStats] never leaves the pool below 0
    and puts no ceiling on it: a cost of at most the pool is subtracted
    exactly (a negative cost raises the pool), a larger cost leaves 0; the
    experience grows by the gain; and two calls in a row, the second with a
    cost of at least 0, amount to one call with the costs and the gains
    added. *)
Theorem X15_updateStats_floor (manaCost xpGain : Z) (s : State) :
  safeInteger (mana s) -> safeInteger manaCost -> safeInteger (mana s - manaCost) ->
  safeInteger (experience s) -> safeInteger xpGain -> safeInteger (experience s + xpGain) ->
  let s' := updateStats manaCost xpGain s in
  (0 <= mana s')%Z /\
  ((manaCost <= mana s)%Z -> mana s' = (mana s - manaCost)%Z) /\
  ((mana s <= manaCost)%Z -> mana s' = 0%Z) /\
  experience s' = (experience s + xpGain)%Z /\
  safeInteger (mana s') /\ safeInteger (experience s') /\
  (forall cost2 gain2,
     (0 <= cost2)%Z ->
     safeInteger cost2 -> safeInteger gain2 ->
     safeInteger (mana s' - cost2) -> safeInteger (experience s' + gain2) ->
     safeInteger (manaCost + cost2) -> safeInteger (xpGain + gain2) ->
     safeInteger (mana s - (manaCost + cost2)) ->
     updateStats cost2 gain2 s' = updateStats (manaCost + cost2) (xpGain + gain2) s).
Proof.
  unfold safeInteger. intros Hm Hc Hmc Hx Hg Hxg. simpl.
  repeat split; try lia.
  intros cost2 gain2 Hpos _ _ _ _ _ _ _. unfold updateStats. simpl. f_equal; lia.
Qed.

Lemma X15_updateStats_floor_witness :
  mana (updateStats 20 0 lowState) = 0%Z /\
  updateStats 20 0 (updateStats 20 0 sampleState) = updateStats 40 0 sampleState.
Proof.
  assert (forall z, (-100000 < z < 100000)%Z -> safeInteger z) as Hsafe.
  { intros z Hz. unfold safeInteger. change (2 ^ 53)%Z with 9007199254740992%Z. lia. }
  destruct (X15_updateStats_floor 20 0 lowState) as (_ & _ & Hclamp & _);
    try (apply Hsafe; simpl; lia).
  destruct (X15_updateStats_floor 20 0 sampleState) as (_ & _ & _ & _ & _ & _ & Htwice);
    try (apply Hsafe; simpl; lia).
  split.
  - apply Hclamp. simpl. lia.
  - apply (Htwice 20%Z 0%Z); try (apply Hsafe; simpl; lia). lia.
Defined.

(** ** The counters stay small *)

Lemma dispatch_experience_bounds (AI_MODELS : list AIModel.t) (e : Event) (s s' : State) :
  dispatch AI_MODELS e s = Some s' ->
  (experience s <= experience s'
   <= experience s + 50 * Z.of_nat (if isSettle e then 1 else 0))%Z.
Proof.
  intros H. by_event e H; try (injection H as <-; simpl; lia).
  - unfold runButton in H.
    destruct (agentConfigs s !! index) as [agent|]; [|discriminate].
    destruct (decide _); [injection H as <-; simpl; lia|].
    apply executeAgent_experience in H. simpl. lia.
  - unfold settle in H. destruct (pending s !! k) as [t|]; [|discriminate].
    injection H as <-. rewrite resume_experience. simpl.
    destruct r as [response|msg]; simpl; [destruct (truthy response)|]; lia.
  - apply handleUploadSettings_experience in H. simpl. lia.
Qed.

Lemma appDispatch_account
    (DEFAULT_PIPELINE_CONFIG : list AgentConfig) (AI_MODELS : list AIModel.t)
    (e : AppEvent) (a a' : Tabbed) :
  (0 <= mana (mounted a))%Z ->
  appDispatch DEFAULT_PIPELINE_CONFIG AI_MODELS e a = Some a' ->
  (mana (mounted a') + 20 * (Z.of_nat (inFlight a') + Z.of_nat (if isAppSettle e then 1 else 0))
   = mana (mounted a) + 20 * Z.of_nat (inFlight a))%Z /\
  (0 <= mana (mounted a'))%Z /\
  (experience (mounted a) <= experience (mounted a')
   <= experience (mounted a) + 50 * Z.of_nat (if isAppSettle e then 1 else 0))%Z.
Proof.
  intros Hm H. unfold inFlight. destruct e as [e'| |k r]; simpl in H.
  - destruct (dispatch AI_MODELS e' (mounted a)) as [s'|] eqn:Hd; [|discriminate].
    injection H as <-. simpl.
    pose proof (dispatch_calls _ _ _ _ Hm Hd) as Hcalls.
    pose proof (dispatch_experience_bounds _ _ _ _ Hd) as Hxp.
    destruct (dispatch_mana _ _ _ _ Hm Hd) as [Hsame | [Hge Hless]];
      destruct (isSettle e'); lia.
  - injection H as <-. simpl. rewrite length_app. lia.
  - destruct (detached a !! k) as [t|] eqn:Hk; [|discriminate]. injection H as <-.
    pose proof (lookup_lt_Some _ _ _ Hk) as Hlt.
    simpl. rewrite length_delete by (rewrite Hk; eauto).
    destruct r as [response|msg]; simpl; [destruct (truthy response)|]; simpl; lia.
Qed.

Lemma appDispatchAll_account
    (DEFAULT_PIPELINE_CONFIG : list AgentConfig) (AI_MODELS : list AIModel.t)
    (es : list AppEvent) (a a' : Tabbed) :
  (0 <= mana (mounted a))%Z ->
  appDispatchAll DEFAULT_PIPELINE_CONFIG AI_MODELS es a = Some a' ->
  (mana (mounted a') + 20 * (Z.of_nat (inFlight a') + Z.of_nat (appAnswers es))
   = mana (mounted a) + 20 * Z.of_nat (inFlight a))%Z /\
  (0 <= mana (mounted a'))%Z /\
  (experience (mounted a) <= experience (mounted a')
   <= experience (mounted a) + 50 * Z.of_nat (appAnswers es))%Z.
Proof.
  revert a. induction es as [|e rest IH]; simpl; intros a Hm H.
  - injection H as <-. lia.
  - destruct (appDispatch DEFAULT_PIPELINE_CONFIG AI_MODELS e a) as [a1|] eqn:He;
      [|discriminate].
    destruct (appDispatch_account _ _ _ _ _ Hm He) as (Hacc & Hm1 & Hxp).
    destruct (IH a1 Hm1 H) as (IHacc & IHm & IHxp).
    destruct (isAppSettle e); lia.
Qed.

(** X25: the two counters stay small.  From the first render, over any
    events of the app (tab switches and answers to calls of unmounted
    components included), the pool stays between 0 and 60, the experience
    between 1200 and 1350, and at most three provider calls are ever issued;
    so every subtraction and addition that [updateStats] performs is on
    integers on which the arithmetic of JavaScript numbers is exact. *)
Theorem X25_counters_stay_small
    (DEFAULT_PIPELINE_CONFIG : list AgentConfig) (AI_MODELS : list AIModel.t)
    (es : list AppEvent) (a : Tabbed) :
  appDispatchAll DEFAULT_PIPELINE_CONFIG AI_MODELS es
                 (mkTabbed (initialState DEFAULT_PIPELINE_CONFIG) []) = Some a ->
  (0 <= mana (mounted a) <= 60)%Z /\
  (1200 <= experience (mounted a) <= 1350)%Z /\
  inFlight a + appAnswers es <= 3 /\
  safeInteger (mana (mounted a)) /\ safeInteger (mana (mounted a) - 20) /\
  safeInteger (experience (mounted a)) /\ safeInteger (experience (mounted a) + 50).
Proof.
  intros H.
  assert (0 <= mana (mounted (mkTabbed (initialState DEFAULT_PIPELINE_CONFIG) [])))%Z
    as Hstart by (simpl; lia).
  destruct (appDispatchAll_account _ _ _ _ _ Hstart H) as (Hacc & Hm & Hxp).
  unfold inFlight in *. simpl in Hacc, Hxp. unfold safeInteger.
  change (2 ^ 53)%Z with 9007199254740992%Z.
  repeat split; lia.
Qed.

Lemma X25_counters_stay_small_witness :
  exists a,
    appDispatchAll [agentA; agentB] [] runSwitchRun sampleApp = Some a /\
    (0 <= mana (mounted a) <= 60)%Z /\ inFlight a <= 3.
Proof.
  destruct (appDispatchAll [agentA; agentB] [] runSwitchRun sampleApp) as [a|] eqn:Hrun;
    [|vm_compute in Hrun; discriminate Hrun].
  destruct (X25_counters_stay_small [agentA; agentB] [] runSwitchRun a Hrun)
    as (Hm & _ & Hcalls & _).
  exists a. split; [reflexivity|]. split; [exact Hm | lia].
Defined.
